(** * ni660x: the acquisition coordinator [CountingApp] of application.py

    A shallow embedding of [ni660x/application.py].  The coordinator owns a
    dictionary of counting channels, one gate generator (the timer) and the
    list of the channel names collected by the last [start_channels].

    The classes [PulseCounter] (counter.py) and [PulseTimeGenerator]
    (generator.py) are imported by application.py and are not part of the
    sources at hand: they enter as interfaces ([PulseCounterOps],
    [PulseTimeGeneratorOps]) and every result below holds for each
    implementation of them. *)

From Stdlib Require Import ZArith List String Bool Lia QArith.
Import ListNotations.

Local Open Scope Z_scope.

(** ** Exceptions *)

(** The Python exceptions the coordinator can end with.  [KeyError],
    [TypeError] and [AttributeError] are raised by the interpreter on the
    coordinator's own lookups; [DriverError] stands for whatever a channel
    or the timer raises from the hardware layer. *)
Inductive exn : Type :=
| KeyError (key : string)
| TypeError (msg : string)
| AttributeError (attr : string)
| DriverError (code : Z).

(** ** Calls made on the collaborators *)

(** Each method call the coordinator makes on a channel or on the timer,
    recorded when the call is made (whether or not it then raises). *)
Inductive call : Type :=
| CounterStart (name : string) (samples : Z)
| CounterStop (name : string)
| TimerStart (samples : Z) (high_time low_time initial_delay : Q)
| TimerStop.

Definition is_counter_start (c : call) : bool :=
  match c with CounterStart _ _ => true | _ => false end.

(** ** Interfaces of the collaborators *)

(** What [CountingApp] uses of a [PulseCounter] object [c]:
    [c.enabled] (read and assigned), [c.data], [c.sample_readies],
    [c.start(samples)] and [c.stop()].  A method returns the exception it
    raised, if any, and the object as the call left it.  [enabled] is a
    stored flag, which an assignment takes effect on at once. *)
Class PulseCounterOps (Sample C : Type) : Type := {
  enabled : C -> bool;
  set_enabled : bool -> C -> C;
  data : C -> list Sample;
  sample_readies : C -> Z;
  counter_start : Z -> C -> option exn * C;
  counter_stop : C -> option exn * C;
  (* reading the attribute after assigning it gives the value assigned *)
  enabled_set_enabled : forall b c, enabled (set_enabled b c) = b
}.

(** What [CountingApp] uses of the [PulseTimeGenerator] object:
    [t.start(samples, high_time, low_time, initial_delay)], [t.stop()] and
    [t.done]. *)
Class PulseTimeGeneratorOps (T : Type) : Type := {
  done : T -> bool;
  timer_start : Z -> Q -> Q -> Q -> T -> option exn * T;
  timer_stop : T -> option exn * T
}.

(** ** Python dictionaries and slices *)

(** A [dict] with string keys, in insertion order. *)
Definition dict (V : Type) : Type := list (string * V).

Definition dict_keys {V : Type} (d : dict V) : list string := map fst d.

(** [d[k]]; [None] is Python's [KeyError]. *)
Fixpoint dict_get {V : Type} (k : string) (d : dict V) : option V :=
  match d with
  | [] => None
  | (k', v) :: d' => if String.eqb k k' then Some v else dict_get k d'
  end.

(** [d[k] = v]: replaces the value of an existing key where it stands,
    appends a new key at the end. *)
Fixpoint dict_set {V : Type} (k : string) (v : V) (d : dict V) : dict V :=
  match d with
  | [] => [(k, v)]
  | (k', v') :: d' =>
      if String.eqb k k' then (k', v) :: d' else (k', v') :: dict_set k v d'
  end.

(** A slice bound brought into [0 .. len], a negative bound counting from
    the end (what CPython's [PySlice_AdjustIndices] does for step 1). *)
Definition adjust_index (i len : Z) : Z :=
  if i <? 0 then (if i + len <? 0 then 0 else i + len)
  else (if len <=? i then len else i).

(** [l[start:stop]] *)
Definition py_slice {A : Type} (l : list A) (start stop : Z) : list A :=
  let len := Z.of_nat (List.length l) in
  let lo := adjust_index start len in
  let hi := adjust_index stop len in
  firstn (Z.to_nat (hi - lo)) (skipn (Z.to_nat lo) l).

(** The position a slice bound stands for in a buffer of [len] elements, in
    the words of the interface description: a negative bound counts from the
    end, and a bound outside the buffer stops at its ends. *)
Definition bound_position (i len : Z) : Z :=
  Z.max 0 (Z.min len (if i <? 0 then len + i else i)).

(** [m] is the least element of [l]. *)
Definition minimum_of (m : Z) (l : list Z) : Prop :=
  In m l /\ Forall (fun x => m <= x) l.

(** [min(l)] of a non-empty list [x :: l] *)
Definition py_min (x : Z) (l : list Z) : Z := fold_left Z.min l x.

Section Coordinator.

Context {Sample C T : Type}.
Context {counter_ops : PulseCounterOps Sample C}.
Context {timer_ops : PulseTimeGeneratorOps T}.

(** ** The coordinator's state *)

(** The attributes of a [CountingApp] object that its methods use, and
    [calls], the calls made so far on the collaborators, oldest first. *)
Record CountingApp : Type := mkApp {
  _timer : T;
  _channels : dict C;
  _channels_started : list string;
  calls : list call
}.

Definition with_channels (d : dict C) (app : CountingApp) : CountingApp :=
  mkApp (_timer app) d (_channels_started app) (calls app).

Definition with_started (l : list string) (app : CountingApp) : CountingApp :=
  mkApp (_timer app) (_channels app) l (calls app).

(** ** A state and exception monad *)

(** A method either returns a value or raises; the state it leaves is kept
    in both cases, as the mutations of a Python method are. *)
Definition M (A : Type) : Type := CountingApp -> (exn + A) * CountingApp.

Definition ret {A : Type} (a : A) : M A := fun app => (inr a, app).

Definition bind {A B : Type} (m : M A) (k : A -> M B) : M B :=
  fun app =>
    match m app with
    | (inl e, app') => (inl e, app')
    | (inr a, app') => k a app'
    end.

Definition raise {A : Type} (e : exn) : M A := fun app => (inl e, app).

Definition gets {A : Type} (f : CountingApp -> A) : M A :=
  fun app => (inr (f app), app).

Definition modify (f : CountingApp -> CountingApp) : M unit :=
  fun app => (inr tt, f app).

Definition outcome (raised : option exn) : exn + unit :=
  match raised with Some e => inl e | None => inr tt end.

End Coordinator.

Arguments CountingApp : clear implicits.
Arguments M : clear implicits.

Declare Scope coord_scope.
Delimit Scope coord_scope with coord.
Notation "x <- m ;; k" := (bind m (fun x => k))
  (at level 61, m at next level, right associativity) : coord_scope.
Notation "m ;; k" := (bind m (fun _ => k))
  (at level 61, right associativity) : coord_scope.
Local Open Scope coord_scope.

Section Methods.

Context {Sample C T : Type}.
Context {counter_ops : PulseCounterOps Sample C}.
Context {timer_ops : PulseTimeGeneratorOps T}.

Local Abbreviation App := (CountingApp C T).
Local Abbreviation Act := (M C T).

(** [for x in xs: body] *)
Fixpoint for_ {A : Type} (xs : list A) (body : A -> Act unit) : Act unit :=
  match xs with
  | [] => ret tt
  | x :: xs' => body x ;; for_ xs' body
  end.

(** [[f(x) for x in xs]], or the loop that appends [f(x)] to a list *)
Fixpoint collect {A B : Type} (xs : list A) (f : A -> Act B) : Act (list B) :=
  match xs with
  | [] => ret []
  | x :: xs' => y <- f x ;; ys <- collect xs' f ;; ret (y :: ys)
  end.

(** [self._channels[name]] *)
Definition channels_getitem (name : string) : Act C :=
  fun app =>
    match dict_get name (_channels app) with
    | Some channel => (inr channel, app)
    | None => (inl (KeyError name), app)
    end.

(** ** [__init__] *)

(** The dictionary built by the loop
    [for name, config in self.config['counters'].items():
        self._channels[name] = PulseCounter(...)]
    from the counters constructed for the entries of the configuration. *)
Definition build_channels (counters : list (string * C)) : dict C :=
  fold_left (fun d entry => dict_set (fst entry) (snd entry) d) counters [].

(** The coordinator after [__init__], given the timer and the counters the
    constructor made.  The terminal connections it sets up first play no
    part in the methods below. *)
Definition init (timer : T) (counters : list (string * C)) : App :=
  mkApp timer (build_channels counters) [] [].

(** ** [start_channels] *)

(** The loop of [start_channels] over [self._channels.items()]: the items
    still to visit, the list collected so far and the calls so far; it gives
    the exception that ended the loop (if any), the items as the loop left
    them, the collected names and the calls. *)
Fixpoint start_items (samples : Z) (items : dict C)
    (started : list string) (log : list call)
  : option exn * dict C * list string * list call :=
  match items with
  | [] => (None, [], started, log)
  | (name, channel) :: rest =>
      (* channel.start(samples) *)
      let (raised, channel') := counter_start samples channel in
      let log' := log ++ [CounterStart name samples] in
      match raised with
      | Some e => (Some e, (name, channel') :: rest, started, log')
      | None =>
          (* if channel.enabled: self._channels_started.append(name) *)
          let started' :=
            if enabled channel' then started ++ [name] else started in
          let '(r, rest', started'', log'') :=
            start_items samples rest started' log' in
          (r, (name, channel') :: rest', started'', log'')
      end
  end.

Definition start_channels (samples : Z) : Act unit :=
  fun app =>
    (* self._channels_started = [] *)
    let '(r, items, started, log) :=
      start_items samples (_channels app) [] (calls app) in
    (outcome r, mkApp (_timer app) items started log).

(** ** [start_timer] *)

Definition start_timer (samples : Z) (high_time low_time initial_delay : Q)
  : Act unit :=
  fun app =>
    let (raised, timer') :=
      timer_start samples high_time low_time initial_delay (_timer app) in
    (outcome raised,
     mkApp timer' (_channels app) (_channels_started app)
       (calls app ++ [TimerStart samples high_time low_time initial_delay])).

(** ** [start_all] *)

Definition start_all (samples : Z) (high_time low_time initial_delay : Q)
  : Act unit :=
  start_channels samples ;;
  start_timer samples high_time low_time initial_delay.

(** ** [stop] *)

(** The loop of [stop] over [self._channels.values()]. *)
Fixpoint stop_items (items : dict C) (log : list call)
  : option exn * dict C * list call :=
  match items with
  | [] => (None, [], log)
  | (name, channel) :: rest =>
      (* channel.stop() *)
      let (raised, channel') := counter_stop channel in
      let log' := log ++ [CounterStop name] in
      match raised with
      | Some e => (Some e, (name, channel') :: rest, log')
      | None =>
          let '(r, rest', log'') := stop_items rest log' in
          (r, (name, channel') :: rest', log'')
      end
  end.

Definition stop_timer : Act unit :=
  fun app =>
    let (raised, timer') := timer_stop (_timer app) in
    (outcome raised,
     mkApp timer' (_channels app) (_channels_started app)
       (calls app ++ [TimerStop])).

Definition stop_channels : Act unit :=
  fun app =>
    let '(r, items, log) := stop_items (_channels app) (calls app) in
    (outcome r, mkApp (_timer app) items (_channels_started app) log).

Definition stop : Act unit :=
  (* self._timer.stop() *)
  stop_timer ;;
  (* for channel in self._channels.values(): channel.stop() *)
  stop_channels.

(** ** [get_all_data] *)

(** [l[key]] for a list [l] and a [str] key: the interpreter raises
    [TypeError] (list indices must be integers or slices), whatever the
    list holds. *)
Definition list_getitem_str (l : list string) (key : string) : Act string :=
  raise (TypeError "list indices must be integers or slices, not str"%string).

(** [s.data] for a [str] object [s]: there is no such attribute. *)
Definition str_data (s : string) : Act (list Sample) :=
  raise (AttributeError "data"%string).

(** The loop of [get_all_data] over [self._channels_started]; [acc] is the
    local dictionary [data]. *)
Fixpoint all_data_loop (names : list string) (acc : dict (list Sample))
  : Act (dict (list Sample)) :=
  match names with
  | [] => ret acc
  | name :: names' =>
      (* data[name] = self._channels_started[name].data.tolist() *)
      started <- gets _channels_started ;;
      element <- list_getitem_str started name ;;
      values <- str_data element ;;
      all_data_loop names' (dict_set name values acc)
  end.

Definition get_all_data : Act (dict (list Sample)) :=
  names <- gets _channels_started ;;
  all_data_loop names [].

(** ** [get_names] *)

Definition get_names : Act (list string) :=
  gets (fun app => dict_keys (_channels app)).

(** ** [get_channel_data] *)

Definition get_channel_data (name : string) (start end_ : Z)
  : Act (list Sample) :=
  (* self._channels[name].data[start:end].tolist() *)
  channel <- channels_getitem name ;;
  ret (py_slice (data channel) start end_).

(** The defaults [start=0], [end=-1]. *)
Definition get_channel_data_default (name : string) : Act (list Sample) :=
  get_channel_data name 0 (-1).

(** ** [set_channels_enabled] *)

(** [self._channels[name].enabled = enabled] *)
Definition assign_enabled (value : bool) (name : string) : Act unit :=
  channel <- channels_getitem name ;;
  modify (fun app =>
    with_channels (dict_set name (set_enabled value channel) (_channels app))
      app).

Definition set_channels_enabled (names : list string) (value : bool)
  : Act unit :=
  (* if len(names) == 0: names = self._channels.keys() *)
  names' <- (if Nat.eqb (List.length names) 0
             then gets (fun app => dict_keys (_channels app))
             else ret names) ;;
  for_ names' (assign_enabled value).

(** ** [get_channels_enabled] *)

Definition get_channels_enabled : Act (dict bool) :=
  gets (fun app =>
    fold_left (fun status item => dict_set (fst item) (enabled (snd item)) status)
      (_channels app) []).

(** ** [get_samples_readies] *)

Definition get_samples_readies : Act Z :=
  (* for name in self._channels_started:
         samples_readies.append(self._channels[name].sample_readies) *)
  names <- gets _channels_started ;;
  samples_readies <-
    collect names (fun name =>
      channel <- channels_getitem name ;; ret (sample_readies channel)) ;;
  match samples_readies with
  | x :: l => ret (py_min x l)
  | [] => ret 0
  end.

(** ** [is_done] *)

Definition is_done : Act bool := gets (fun app => done (_timer app)).

End Methods.

(** ** Runs of the coordinator *)

Section Runs.

Context {Sample C T : Type}.
Context {counter_ops : PulseCounterOps Sample C}.
Context {timer_ops : PulseTimeGeneratorOps T}.

(** What can happen to a coordinator between its construction and a later
    moment: a call of one of its methods (through the XML-RPC server that
    registers the instance), or the hardware going on by itself ([Hardware]:
    the counters fill their buffers, the timer runs out), which changes the
    channel and timer objects and nothing else. *)
Inductive step : Type :=
| StartChannels (samples : Z)
| StartTimer (samples : Z) (high_time low_time initial_delay : Q)
| StartAll (samples : Z) (high_time low_time initial_delay : Q)
| Stop
| GetAllData
| GetNames
| GetChannelData (name : string) (start end_ : Z)
| SetChannelsEnabled (names : list string) (value : bool)
| GetChannelsEnabled
| GetSamplesReadies
| IsDone
| Hardware (on_counter : string -> C -> C) (on_timer : T -> T).

(** The state a step leaves, whether the method returned or raised. *)
Definition serve (s : step) (app : CountingApp C T) : CountingApp C T :=
  match s with
  | StartChannels samples => snd (start_channels samples app)
  | StartTimer samples h l d => snd (start_timer samples h l d app)
  | StartAll samples h l d => snd (start_all samples h l d app)
  | Stop => snd (stop app)
  | GetAllData => snd (get_all_data (Sample := Sample) app)
  | GetNames => snd (get_names app)
  | GetChannelData name start end_ =>
      snd (get_channel_data name start end_ app)
  | SetChannelsEnabled names value =>
      snd (set_channels_enabled names value app)
  | GetChannelsEnabled => snd (get_channels_enabled app)
  | GetSamplesReadies => snd (get_samples_readies app)
  | IsDone => snd (is_done app)
  | Hardware on_counter on_timer =>
      mkApp (on_timer (_timer app))
        (map (fun item => (fst item, on_counter (fst item) (snd item)))
           (_channels app))
        (_channels_started app) (calls app)
  end.

Fixpoint run (steps : list step) (app : CountingApp C T) : CountingApp C T :=
  match steps with
  | [] => app
  | s :: steps' => run steps' (serve s app)
  end.

(** The sample count of a step that runs [start_channels]. *)
Definition starts_channels (s : step) : option Z :=
  match s with
  | StartChannels samples => Some samples
  | StartAll samples _ _ _ => Some samples
  | _ => None
  end.

(** What the coordinator documents about [_channels_started], as a property
    of the items [start_channels] found in [self._channels]: the channel
    [name] was reached by the loop (every [start] before it returned), its
    own [start] returned, and its flag was set right after. *)
Definition start_ok (samples : Z) (item : string * C) : Prop :=
  fst (counter_start samples (snd item)) = None.

Definition started_and_enabled (samples : Z) (items : dict C) (name : string)
  : Prop :=
  exists pre channel post,
    items = pre ++ (name, channel) :: post /\
    Forall (start_ok samples) pre /\
    fst (counter_start samples channel) = None /\
    enabled (snd (counter_start samples channel)) = true.

Definition stop_ok (item : string * C) : Prop :=
  fst (counter_stop (snd item)) = None.

(** [self._channels[name]] exists. *)
Definition configured (app : CountingApp C T) (name : string) : Prop :=
  In name (dict_keys (_channels app)).

(** The item of a channel once its [start] has been called. *)
Definition after_start (samples : Z) (item : string * C) : string * C :=
  (fst item, snd (counter_start samples (snd item))).

Definition after_stop (item : string * C) : string * C :=
  (fst item, snd (counter_stop (snd item))).

Definition keys_of (app : CountingApp C T) : list string := dict_keys (_channels app).

(** The sample counts of the channels named in [names], read in [app]. *)
Definition readies_of (app : CountingApp C T) (names : list string) (readies : list Z)
  : Prop :=
  Forall2 (fun name r =>
             exists channel,
               dict_get name (_channels app) = Some channel /\
               sample_readies channel = r)
          names readies.

End Runs.

Arguments step : clear implicits.

(** ** A simulated counter and timer *)

(** An implementation of the two interfaces without hardware, to run the
    coordinator on concrete configurations: a counter holds its flag, its
    buffer and its count of ready samples; [busy] says that the device
    refuses to be armed or disarmed. *)
Module Sim.

Record counter : Type := mkCounter {
  c_enabled : bool;
  c_data : list Z;
  c_readies : Z;
  c_busy : bool
}.

(** Modelled from the spec: [PulseCounter.start] (counter.py is not among
    the sources) arms the counter for a new run and resets its buffer and
    its count of ready samples; it fails when the device cannot be armed. *)
Definition c_start (samples : Z) (c : counter) : option exn * counter :=
  if c_busy c then (Some (DriverError 1), c)
  else (None, mkCounter (c_enabled c) [] 0 false).

(** Modelled from the spec: [PulseCounter.stop] disarms the counter and is
    safe to call whether or not the counter was started. *)
Definition c_stop (c : counter) : option exn * counter := (None, c).

Definition c_set_enabled (b : bool) (c : counter) : counter :=
  mkCounter b (c_data c) (c_readies c) (c_busy c).

Record timer : Type := mkTimer {
  t_done : bool;
  t_busy : bool
}.

(** Modelled from the spec: [PulseTimeGenerator.start] and [stop]
    (generator.py is not among the sources) begin and halt the pulse train;
    [done] is false while it runs and true once it is stopped; both fail
    when the device refuses the command. *)
Definition t_start (samples : Z) (high_time low_time initial_delay : Q)
    (t : timer) : option exn * timer :=
  if t_busy t then (Some (DriverError 3), t) else (None, mkTimer false false).

Definition t_stop (t : timer) : option exn * timer :=
  if t_busy t then (Some (DriverError 4), t) else (None, mkTimer true false).

#[global] Instance counter_ops : PulseCounterOps Z counter := {
  enabled := c_enabled;
  set_enabled := c_set_enabled;
  data := c_data;
  sample_readies := c_readies;
  counter_start := c_start;
  counter_stop := c_stop;
  enabled_set_enabled := fun b c => eq_refl
}.

#[global] Instance timer_ops : PulseTimeGeneratorOps timer := {
  done := t_done;
  timer_start := t_start;
  timer_stop := t_stop
}.

Definition app : Type := CountingApp counter timer.

(** Two channels, [A] enabled and [B] disabled, and a timer. *)
Definition chanA : counter := mkCounter true [1; 2; 3; 4; 5] 5 false.
Definition chanB : counter := mkCounter false [7; 8] 2 false.

Definition app_AB : app :=
  init (mkTimer false false) [("A"%string, chanA); ("B"%string, chanB)].

(** The same with a timer that refuses every command. *)
Definition app_busy_timer : app :=
  init (mkTimer false true) [("A"%string, chanA); ("B"%string, chanB)].

(** [app_AB] after [start_all(10, 0.01, 0.01)]. *)
Definition app_AB_started : app :=
  snd (start_all 10 (1 # 100) (1 # 100) 0 app_AB).

(** [app_AB_started] once counter [A] has three samples ready. *)
Definition app_AB_running : app :=
  serve (Hardware (fun name c =>
                     if String.eqb name "A"
                     then mkCounter (c_enabled c) [10; 20; 30] 3 false
                     else c)
                  (fun t => t)) app_AB_started.

(** [app_AB] after [set_channels_enabled(['A'], False)]. *)
Definition app_A_disabled : app :=
  snd (set_channels_enabled ["A"%string] false app_AB).

(** A third channel, enabled, whose device refuses commands. *)
Definition chanC : counter := mkCounter true [] 0 true.

(** A run on two enabled channels: [start_all], then five samples ready on
    [A] and three on [D]. *)
Definition chanD : counter := mkCounter true [] 0 false.

Definition steps_AD : list (step counter timer) :=
  [StartAll 10 (1 # 100) (1 # 100) 0;
   Hardware (fun name c =>
               if String.eqb name "A"
               then mkCounter (c_enabled c) [1; 2; 3; 4; 5] 5 false
               else mkCounter (c_enabled c) [6; 7; 8] 3 false)
            (fun t => t)].

(** A session on [app_AB]: [start_all], then [A] is disabled, then [stop]. *)
Definition steps_AB : list (step counter timer) :=
  [StartAll 10 (1 # 100) (1 # 100) 0;
   SetChannelsEnabled ["A"%string] false;
   Stop].

(** [A], the refusing [C] and [B], in this order. *)
Definition app_ACB : app :=
  init (mkTimer false false)
    [("A"%string, chanA); ("C"%string, chanC); ("B"%string, chanB)].

End Sim.

(** ** A simulated counter that can refuse to stop *)

Module Stuck.

Record counter : Type := mkCounter {
  c_enabled : bool;
  c_data : list Z;
  c_readies : Z;
  c_stuck : bool
}.

(** Modelled from the spec: [PulseCounter.start] (counter.py is not among
    the sources) arms the counter and resets its buffer and its count of
    ready samples. *)
Definition c_start (samples : Z) (c : counter) : option exn * counter :=
  (None, mkCounter (c_enabled c) [] 0 (c_stuck c)).

(** Modelled from the spec: [PulseCounter.stop] disarms the counter; a
    device that cannot be stopped as requested makes it raise. *)
Definition c_stop (c : counter) : option exn * counter :=
  if c_stuck c then (Some (DriverError 2), c) else (None, c).

Definition c_set_enabled (b : bool) (c : counter) : counter :=
  mkCounter b (c_data c) (c_readies c) (c_stuck c).

#[global] Instance counter_ops : PulseCounterOps Z counter := {
  enabled := c_enabled;
  set_enabled := c_set_enabled;
  data := c_data;
  sample_readies := c_readies;
  counter_start := c_start;
  counter_stop := c_stop;
  enabled_set_enabled := fun b c => eq_refl
}.

(** Three enabled channels, of which [C], the second, cannot be stopped. *)
Definition chanA : counter := mkCounter true [1; 2] 2 false.
Definition chanC : counter := mkCounter true [3] 1 true.
Definition chanB : counter := mkCounter true [] 0 false.

Definition app_ACB : CountingApp counter Sim.timer :=
  init (Sim.mkTimer false false)
    [("A"%string, chanA); ("C"%string, chanC); ("B"%string, chanB)].

End Stuck.

(** ** Steps that only read *)

Section Readers.

Context {C T : Type}.

(** The steps that call one of the coordinator's [get_...] methods or
    [is_done]. *)
Definition reads (s : step C T) : bool :=
  match s with
  | GetAllData | GetNames | GetChannelData _ _ _
  | GetChannelsEnabled | GetSamplesReadies | IsDone => true
  | _ => false
  end.

(** The dictionary of the flags of the items of a [dict] of channels. *)
Definition flags_of {Sample : Type} {ops : PulseCounterOps Sample C}
    (items : dict C) : dict bool :=
  map (fun item => (fst item, enabled (snd item))) items.

End Readers.

(** * Properties *)

(** ** Dictionaries *)

Section DictFacts.

Context {V : Type}.

Lemma dict_get_in_keys (k : string) (d : dict V) :
  dict_get k d <> None <-> In k (dict_keys d).
Proof.
  induction d as [|[k' v] d IH]; simpl.
  - split; [congruence | tauto].
  - destruct (String.eqb_spec k k') as [->|Hne].
    + split; [auto | congruence].
    + rewrite IH. split; [auto | intros [Heq|Hin]; [congruence | exact Hin]].
Qed.

Lemma dict_get_none (k : string) (d : dict V) :
  dict_get k d = None <-> ~ In k (dict_keys d).
Proof.
  rewrite <- dict_get_in_keys.
  destruct (dict_get k d); split; intros H; try congruence.
  exfalso. apply H. congruence.
Qed.

Lemma dict_get_some_in (k : string) (v : V) (d : dict V) :
  dict_get k d = Some v -> In k (dict_keys d).
Proof. intros H. apply dict_get_in_keys. congruence. Qed.

Lemma dict_get_set_same (k : string) (v : V) (d : dict V) :
  dict_get k (dict_set k v d) = Some v.
Proof.
  induction d as [|[k' v'] d IH]; simpl.
  - now rewrite String.eqb_refl.
  - destruct (String.eqb_spec k k') as [->|Hne]; simpl.
    + now rewrite String.eqb_refl.
    + destruct (String.eqb_spec k k'); [congruence | exact IH].
Qed.

Lemma dict_get_set_other (k k' : string) (v : V) (d : dict V) :
  k <> k' -> dict_get k' (dict_set k v d) = dict_get k' d.
Proof.
  intros Hne. induction d as [|[k0 v0] d IH]; simpl.
  - destruct (String.eqb_spec k' k); [congruence | reflexivity].
  - destruct (String.eqb_spec k k0) as [->|Hk]; simpl.
    + destruct (String.eqb_spec k' k0); [congruence | reflexivity].
    + now rewrite IH.
Qed.

Lemma dict_set_keys (k : string) (v : V) (d : dict V) :
  In k (dict_keys d) -> dict_keys (dict_set k v d) = dict_keys d.
Proof.
  induction d as [|[k' v'] d IH]; simpl; [tauto|].
  intros Hin. destruct (String.eqb_spec k k') as [->|Hne]; simpl.
  - reflexivity.
  - f_equal. apply IH. destruct Hin; [congruence | assumption].
Qed.

Lemma dict_set_keys_new (k : string) (v : V) (d : dict V) :
  ~ In k (dict_keys d) -> dict_keys (dict_set k v d) = dict_keys d ++ [k].
Proof.
  induction d as [|[k' v'] d IH]; simpl; [reflexivity|].
  intros Hin. destruct (String.eqb_spec k k') as [->|Hne]; simpl.
  - exfalso. apply Hin. now left.
  - f_equal. apply IH. tauto.
Qed.

Lemma dict_set_nodup (k : string) (v : V) (d : dict V) :
  NoDup (dict_keys d) -> NoDup (dict_keys (dict_set k v d)).
Proof.
  intros Hd. destruct (in_dec string_dec k (dict_keys d)) as [Hin|Hout].
  - now rewrite dict_set_keys.
  - rewrite dict_set_keys_new by exact Hout.
    apply NoDup_rev in Hd. rewrite <- (rev_involutive (dict_keys d ++ [k])).
    apply NoDup_rev. rewrite rev_app_distr. simpl. constructor; [|exact Hd].
    now rewrite <- in_rev.
Qed.

End DictFacts.

(** ** Slices *)

Lemma adjust_index_position (i len : Z) :
  0 <= len -> adjust_index i len = bound_position i len.
Proof.
  intros Hlen. unfold adjust_index, bound_position.
  destruct (Z.ltb_spec i 0).
  - destruct (Z.ltb_spec (i + len) 0); lia.
  - destruct (Z.leb_spec len i); lia.
Qed.

Lemma adjust_index_range (i len : Z) :
  0 <= len -> 0 <= adjust_index i len <= len.
Proof.
  intros Hlen. rewrite adjust_index_position by exact Hlen.
  unfold bound_position. lia.
Qed.

Lemma py_slice_length {A : Type} (l : list A) (start stop : Z) :
  let len := Z.of_nat (List.length l) in
  List.length (py_slice l start stop) =
  Z.to_nat (bound_position stop len - bound_position start len).
Proof.
  intros len. unfold py_slice. fold len.
  assert (Hlen : 0 <= len) by (unfold len; lia).
  pose proof (adjust_index_range start len Hlen) as Hs.
  pose proof (adjust_index_range stop len Hlen) as He.
  rewrite <- !adjust_index_position by exact Hlen.
  rewrite length_firstn, length_skipn. unfold len in *. lia.
Qed.

Lemma nth_error_firstn_lt {A : Type} (n k : nat) (l : list A) :
  (k < n)%nat -> nth_error (firstn n l) k = nth_error l k.
Proof.
  revert k l. induction n as [|n IH]; intros k l Hk; [lia|].
  destruct l as [|x l]; simpl; [reflexivity|].
  destruct k as [|k]; simpl; [reflexivity|]. apply IH. lia.
Qed.

Lemma nth_error_skipn_add {A : Type} (n k : nat) (l : list A) :
  nth_error (skipn n l) k = nth_error l (n + k).
Proof.
  revert l. induction n as [|n IH]; intros l; simpl; [reflexivity|].
  destruct l as [|x l]; simpl; [now destruct k | apply IH].
Qed.

Lemma py_slice_nth {A : Type} (l : list A) (start stop : Z) (k : nat) :
  (k < List.length (py_slice l start stop))%nat ->
  nth_error (py_slice l start stop) k =
  nth_error l (Z.to_nat (bound_position start (Z.of_nat (List.length l))) + k).
Proof.
  intros Hk. rewrite <- adjust_index_position by lia.
  unfold py_slice in *. rewrite length_firstn in Hk.
  rewrite nth_error_firstn_lt by lia. apply nth_error_skipn_add.
Qed.

(** ** Minimum *)

Lemma py_min_le (l : list Z) (x : Z) :
  py_min x l <= x /\ Forall (fun y => py_min x l <= y) l.
Proof.
  unfold py_min. revert x. induction l as [|y l IH]; intros x; simpl.
  - split; [lia | constructor].
  - destruct (IH (Z.min x y)) as [H1 H2]. split; [lia|].
    constructor; [lia | exact H2].
Qed.

Lemma py_min_in (l : list Z) (x : Z) : In (py_min x l) (x :: l).
Proof.
  unfold py_min. revert x. induction l as [|y l IH]; intros x; simpl.
  - now left.
  - destruct (IH (Z.min x y)) as [H|H]; [|auto].
    rewrite <- H.
    destruct (Z.min_spec x y) as [[_ E]|[_ E]]; rewrite E; auto.
Qed.

Lemma py_min_minimum (l : list Z) (x : Z) : minimum_of (py_min x l) (x :: l).
Proof.
  split; [apply py_min_in|].
  destruct (py_min_le l x) as [H1 H2]. now constructor.
Qed.

(** ** The loops of [start_channels] and [stop] *)

Section LoopFacts.

Context {Sample C T : Type}.
Context {counter_ops : PulseCounterOps Sample C}.
Context {timer_ops : PulseTimeGeneratorOps T}.

Lemma after_start_item (samples : Z) (name : string) (c c' : C)
    (r : option exn) :
  counter_start samples c = (r, c') -> after_start samples (name, c) = (name, c').
Proof. intros H. unfold after_start. simpl. now rewrite H. Qed.

Lemma after_stop_item (name : string) (c c' : C) (r : option exn) :
  counter_stop c = (r, c') -> after_stop (name, c) = (name, c').
Proof. intros H. unfold after_stop. simpl. now rewrite H. Qed.

Lemma start_items_keys (samples : Z) (items : dict C) :
  forall started log r items' started' log',
    start_items samples items started log = (r, items', started', log') ->
    dict_keys items' = dict_keys items.
Proof.
  induction items as [|[name channel] rest IH]; simpl; intros * H.
  - now inversion H.
  - destruct (counter_start samples channel) as [[e|] channel'].
    + now inversion H.
    + destruct (start_items samples rest _ _) as [[[r0 rest'] st0] log0] eqn:E.
      inversion H; subst. simpl. f_equal. eapply IH. exact E.
Qed.

(** Which calls the loop makes, and on which items: it goes through the
    items in order, calls [start] on each, and ends at the first [start]
    that raises. *)
Lemma start_items_calls (samples : Z) (items : dict C) :
  forall started log r items' started' log',
    start_items samples items started log = (r, items', started', log') ->
    exists ok rest,
      items = ok ++ rest /\
      Forall (start_ok samples) ok /\
      started' =
        started ++ dict_keys (filter (fun item => enabled (snd item))
                                (map (after_start samples) ok)) /\
      match r with
      | None =>
          rest = [] /\
          items' = map (after_start samples) ok /\
          log' = log ++ map (fun n => CounterStart n samples) (dict_keys ok)
      | Some e =>
          exists bad rest',
            rest = bad :: rest' /\
            fst (counter_start samples (snd bad)) = Some e /\
            items' = map (after_start samples) ok
                       ++ after_start samples bad :: rest' /\
            log' = log ++ map (fun n => CounterStart n samples)
                            (dict_keys ok ++ [fst bad])
      end.
Proof.
  induction items as [|[name channel] rest IH]; simpl; intros * H.
  - inversion H; subst. exists [], []. simpl. rewrite !app_nil_r.
    repeat (split; auto).
  - destruct (counter_start samples channel) as [[e|] channel'] eqn:Ec.
    + inversion H; subst. exists [], ((name, channel) :: rest).
      simpl. rewrite app_nil_r. do 3 (split; [auto|]).
      exists (name, channel), rest.
      rewrite (after_start_item _ _ _ _ _ Ec). simpl. rewrite Ec. auto.
    + destruct (start_items samples rest _ _) as [[[r0 rest'] st0] log0] eqn:E.
      inversion H; subst.
      destruct (IH _ _ _ _ _ _ E) as (ok & rest0 & Hitems & Hok & Hst & Hr).
      exists ((name, channel) :: ok), rest0. split; [simpl; now f_equal|].
      split.
      { constructor; [|exact Hok]. unfold start_ok. simpl. now rewrite Ec. }
      split.
      { rewrite Hst. cbn [map]. rewrite (after_start_item _ _ _ _ _ Ec).
        simpl. destruct (enabled channel'); simpl; [|reflexivity].
        now rewrite <- app_assoc. }
      destruct r as [e|].
      * destruct Hr as (bad & rest1 & -> & Hbad & -> & ->).
        exists bad, rest1. repeat split; auto.
        -- simpl. now rewrite (after_start_item _ _ _ _ _ Ec).
        -- rewrite <- app_assoc. reflexivity.
      * destruct Hr as (-> & -> & ->). repeat split; auto.
        -- simpl. now rewrite (after_start_item _ _ _ _ _ Ec).
        -- rewrite <- app_assoc. reflexivity.
Qed.

Lemma started_and_enabled_nil (samples : Z) (name : string) :
  ~ started_and_enabled samples (@nil (string * C)) name.
Proof.
  intros (pre & ch & post & H & _). now destruct pre.
Qed.

Lemma started_and_enabled_cons (samples : Z) (n : string) (c : C)
    (rest : dict C) (name : string) :
  started_and_enabled samples ((n, c) :: rest) name <->
  fst (counter_start samples c) = None /\
  ((name = n /\ enabled (snd (counter_start samples c)) = true) \/
   started_and_enabled samples rest name).
Proof.
  split.
  - intros (pre & ch & post & H & Hpre & Hs & He).
    destruct pre as [|p pre]; simpl in H; inversion H; subst.
    + split; [exact Hs | left; auto].
    + inversion Hpre; subst. split; [assumption|].
      right. exists pre, ch, post. auto.
  - intros [Hs [[-> He]|(pre & ch & post & -> & Hpre & Hs' & He)]].
    + exists [], c, rest. repeat split; auto.
    + exists ((n, c) :: pre), ch, post. repeat split; auto.
Qed.

(** Which names the loop collects. *)
Lemma start_items_started (samples : Z) (items : dict C) :
  forall started log r items' started' log',
    start_items samples items started log = (r, items', started', log') ->
    forall name,
      In name started' <->
      In name started \/ started_and_enabled samples items name.
Proof.
  induction items as [|[n channel] rest IH]; simpl; intros * H name.
  - inversion H; subst. pose proof (started_and_enabled_nil samples name).
    tauto.
  - rewrite started_and_enabled_cons.
    destruct (counter_start samples channel) as [[e|] channel'] eqn:Ec; simpl.
    + inversion H; subst. split; [auto | intros [?|[? _]]; [auto|discriminate]].
    + destruct (start_items samples rest _ _) as [[[r0 rest'] st0] log0] eqn:E.
      inversion H; subst. rewrite (IH _ _ _ _ _ _ E name).
      destruct (enabled channel') eqn:En.
      * rewrite in_app_iff. simpl. intuition.
      * intuition; congruence.
Qed.

Lemma stop_items_keys (items : dict C) :
  forall log r items' log',
    stop_items items log = (r, items', log') ->
    dict_keys items' = dict_keys items.
Proof.
  induction items as [|[name channel] rest IH]; simpl; intros * H.
  - now inversion H.
  - destruct (counter_stop channel) as [[e|] channel'].
    + now inversion H.
    + destruct (stop_items rest _) as [[r0 rest'] log0] eqn:E.
      inversion H; subst. simpl. f_equal. eapply IH. exact E.
Qed.

(** The loop of [stop] goes through the items in order, calls [stop] on
    each, and ends at the first [stop] that raises. *)
Lemma stop_items_calls (items : dict C) :
  forall log r items' log',
    stop_items items log = (r, items', log') ->
    exists ok rest,
      items = ok ++ rest /\
      Forall stop_ok ok /\
      match r with
      | None =>
          rest = [] /\
          items' = map after_stop ok /\
          log' = log ++ map CounterStop (dict_keys ok)
      | Some e =>
          exists bad rest',
            rest = bad :: rest' /\
            fst (counter_stop (snd bad)) = Some e /\
            items' = map after_stop ok ++ after_stop bad :: rest' /\
            log' = log ++ map CounterStop (dict_keys ok ++ [fst bad])
      end.
Proof.
  induction items as [|[name channel] rest IH]; simpl; intros * H.
  - inversion H; subst. exists [], []. repeat split; auto.
    now rewrite app_nil_r.
  - destruct (counter_stop channel) as [[e|] channel'] eqn:Ec.
    + inversion H; subst. exists [], ((name, channel) :: rest).
      repeat split; auto.
      exists (name, channel), rest.
      rewrite (after_stop_item _ _ _ _ Ec). simpl. rewrite Ec. auto.
    + destruct (stop_items rest _) as [[r0 rest'] log0] eqn:E.
      inversion H; subst.
      destruct (IH _ _ _ _ E) as (ok & rest0 & Hitems & Hok & Hr).
      exists ((name, channel) :: ok), rest0. split; [simpl; now f_equal|].
      split.
      { constructor; [|exact Hok]. unfold stop_ok. simpl. now rewrite Ec. }
      destruct r as [e|].
      * destruct Hr as (bad & rest1 & -> & Hbad & -> & ->).
        exists bad, rest1. repeat split; auto.
        -- simpl. now rewrite (after_stop_item _ _ _ _ Ec).
        -- rewrite <- app_assoc. reflexivity.
      * destruct Hr as (-> & -> & ->). repeat split; auto.
        -- simpl. now rewrite (after_stop_item _ _ _ _ Ec).
        -- rewrite <- app_assoc. reflexivity.
Qed.

End LoopFacts.

(** ** What each method leaves of the state *)

Section MethodFacts.

Context {Sample C T : Type}.
Context {counter_ops : PulseCounterOps Sample C}.
Context {timer_ops : PulseTimeGeneratorOps T}.

Local Abbreviation App := (CountingApp C T).

Lemma started_and_enabled_configured (samples : Z) (items : dict C)
    (name : string) :
  started_and_enabled samples items name -> In name (dict_keys items).
Proof.
  intros (pre & ch & post & -> & _). unfold dict_keys.
  rewrite map_app, in_app_iff. right. now left.
Qed.

Lemma start_channels_keys (samples : Z) (app : App) :
  keys_of (snd (start_channels samples app)) = keys_of app.
Proof.
  unfold start_channels, keys_of.
  destruct (start_items samples _ _ _) as [[[r items] st] log] eqn:E; simpl.
  eapply start_items_keys; exact E.
Qed.

Lemma start_channels_started (samples : Z) (app : App) (name : string) :
  In name (_channels_started (snd (start_channels samples app))) <->
  started_and_enabled samples (_channels app) name.
Proof.
  unfold start_channels.
  destruct (start_items samples _ _ _) as [[[r items] st] log] eqn:E; simpl.
  rewrite (start_items_started _ _ _ _ _ _ _ _ E name). simpl. tauto.
Qed.

Lemma start_timer_channels (samples : Z) (h l d : Q) (app : App) :
  _channels (snd (start_timer samples h l d app)) = _channels app /\
  _channels_started (snd (start_timer samples h l d app)) =
    _channels_started app.
Proof.
  unfold start_timer. destruct (timer_start _ _ _ _ _); simpl. auto.
Qed.

Lemma start_all_unfold (samples : Z) (h l d : Q) (app : App) :
  start_all samples h l d app =
  match fst (start_channels samples app) with
  | inl e => (inl e, snd (start_channels samples app))
  | inr _ => start_timer samples h l d (snd (start_channels samples app))
  end.
Proof.
  unfold start_all, bind.
  destruct (start_channels samples app) as [[e|[]] app']; reflexivity.
Qed.

Lemma start_all_channels (samples : Z) (h l d : Q) (app : App) :
  keys_of (snd (start_all samples h l d app)) = keys_of app /\
  _channels_started (snd (start_all samples h l d app)) =
    _channels_started (snd (start_channels samples app)).
Proof.
  rewrite start_all_unfold.
  destruct (fst (start_channels samples app)) as [e|u]; simpl.
  - split; [apply start_channels_keys | reflexivity].
  - destruct (start_timer_channels samples h l d
                (snd (start_channels samples app))) as [Hc Hs].
    unfold keys_of. rewrite Hc, Hs.
    split; [apply start_channels_keys | reflexivity].
Qed.

Lemma stop_channels_state (app : App) :
  keys_of (snd (stop_channels app)) = keys_of app /\
  _channels_started (snd (stop_channels app)) = _channels_started app /\
  _timer (snd (stop_channels app)) = _timer app.
Proof.
  unfold stop_channels, keys_of.
  destruct (stop_items _ _) as [[r items] log] eqn:E; simpl.
  split; [eapply stop_items_keys; exact E | auto].
Qed.

Lemma stop_unfold (app : App) :
  stop app =
  match fst (stop_timer app) with
  | inl e => (inl e, snd (stop_timer app))
  | inr _ => stop_channels (snd (stop_timer app))
  end.
Proof.
  unfold stop, bind. destruct (stop_timer app) as [[e|[]] app']; reflexivity.
Qed.

Lemma stop_state (app : App) :
  keys_of (snd (stop app)) = keys_of app /\
  _channels_started (snd (stop app)) = _channels_started app.
Proof.
  rewrite stop_unfold.
  assert (Ht : _channels (snd (stop_timer app)) = _channels app /\
               _channels_started (snd (stop_timer app)) =
                 _channels_started app).
  { unfold stop_timer. destruct (timer_stop _); simpl; auto. }
  destruct Ht as [Hc Hs].
  destruct (fst (stop_timer app)) as [e|u]; simpl.
  - unfold keys_of. now rewrite Hc, Hs.
  - destruct (stop_channels_state (snd (stop_timer app))) as (Hk & Hs' & _).
    rewrite Hk, Hs'. unfold keys_of. now rewrite Hc, Hs.
Qed.

(** [stop] does not read [_channels_started]. *)
Lemma stop_ignores_started (app : App) (names : list string) :
  fst (stop (with_started names app)) = fst (stop app) /\
  calls (snd (stop (with_started names app))) = calls (snd (stop app)).
Proof.
  rewrite !stop_unfold. unfold stop_timer, stop_channels. simpl.
  destruct (timer_stop (_timer app)) as [[e|] timer']; simpl; auto.
  destruct (stop_items _ _) as [[r items] log]. simpl. auto.
Qed.

(** [get_all_data] ends at the first name of [_channels_started]. *)
Lemma get_all_data_unfold (app : App) :
  get_all_data (Sample := Sample) app =
  match _channels_started app with
  | [] => (inr [], app)
  | _ :: _ =>
      (inl (TypeError "list indices must be integers or slices, not str"), app)
  end.
Proof.
  unfold get_all_data, bind, gets.
  destruct (_channels_started app); reflexivity.
Qed.

Lemma get_channel_data_unfold (name : string) (start end_ : Z) (app : App) :
  get_channel_data name start end_ app =
  match dict_get name (_channels app) with
  | Some channel => (inr (py_slice (data channel) start end_), app)
  | None => (inl (KeyError name), app)
  end.
Proof.
  unfold get_channel_data, bind, channels_getitem.
  destruct (dict_get name (_channels app)); reflexivity.
Qed.

Lemma assign_enabled_unfold (value : bool) (name : string) (app : App) :
  assign_enabled value name app =
  match dict_get name (_channels app) with
  | Some channel =>
      (inr tt,
       with_channels
         (dict_set name (set_enabled value channel) (_channels app)) app)
  | None => (inl (KeyError name), app)
  end.
Proof.
  unfold assign_enabled, bind, channels_getitem.
  destruct (dict_get name (_channels app)); reflexivity.
Qed.

(** The loop of [set_channels_enabled]: it assigns the flag of the names it
    reaches, in order, and ends at the first name that is not a key. *)
Lemma for_assign_enabled (value : bool) (names : list string) :
  forall app : App,
    let result := for_ names (assign_enabled value) app in
    exists reached rest,
      names = reached ++ rest /\
      Forall (configured app) reached /\
      match rest with
      | [] => fst result = inr tt
      | bad :: _ => ~ configured app bad /\ fst result = inl (KeyError bad)
      end /\
      keys_of (snd result) = keys_of app /\
      _channels_started (snd result) = _channels_started app /\
      _timer (snd result) = _timer app /\
      calls (snd result) = calls app /\
      forall name,
        (In name reached ->
         exists channel,
           dict_get name (_channels (snd result)) = Some channel /\
           enabled channel = value) /\
        (~ In name reached ->
         dict_get name (_channels (snd result)) =
         dict_get name (_channels app)).
Proof.
  induction names as [|n names IH]; intros app; simpl.
  - exists [], []. unfold ret. simpl. repeat split; auto. intros [].
  - unfold bind. rewrite assign_enabled_unfold.
    destruct (dict_get n (_channels app)) as [ch|] eqn:Hn.
    + set (app1 := with_channels _ app).
      assert (Hkeys : keys_of app1 = keys_of app).
      { unfold app1, keys_of, with_channels. simpl.
        apply dict_set_keys. eapply dict_get_some_in; exact Hn. }
      destruct (IH app1)
        as (reached & rest & -> & Hreached & Hrest & Hk & Hs & Ht & Hc & Hflags).
      exists (n :: reached), rest. split; [reflexivity|].
      split.
      { constructor.
        - eapply dict_get_some_in; exact Hn.
        - revert Hreached. apply Forall_impl. intros x.
          unfold configured. fold (keys_of app1) (keys_of app).
          now rewrite Hkeys. }
      split.
      { destruct rest as [|bad rest']; [exact Hrest|].
        destruct Hrest as [Hbad Hres]. split; [|exact Hres].
        unfold configured in *. fold (keys_of app1) in Hbad.
        fold (keys_of app). now rewrite <- Hkeys. }
      split; [now rewrite Hk|]. split; [now rewrite Hs|].
      split; [now rewrite Ht|]. split; [now rewrite Hc|].
      intros name. destruct (Hflags name) as [Hin Hout]. split.
      * intros Hname.
        destruct (in_dec string_dec name reached) as [Hr|Hr]; [now apply Hin|].
        destruct Hname as [<-|Hname]; [|contradiction].
        rewrite (Hout Hr). unfold app1, with_channels. simpl.
        rewrite dict_get_set_same. eexists. split; [reflexivity|].
        apply enabled_set_enabled.
      * intros Hname. simpl in Hname.
        rewrite Hout by tauto. unfold app1, with_channels. simpl.
        apply dict_get_set_other. intros ->. tauto.
    + exists [], (n :: names). simpl. repeat split; auto.
      * unfold configured. now apply dict_get_none.
      * intros [].
Qed.

Lemma set_channels_enabled_unfold (names : list string) (value : bool)
    (app : App) :
  set_channels_enabled names value app =
  for_ (match names with [] => keys_of app | _ => names end)
       (assign_enabled value) app.
Proof.
  unfold set_channels_enabled, bind, gets, ret.
  destruct names; reflexivity.
Qed.

Lemma set_channels_enabled_state (names : list string) (value : bool)
    (app : App) :
  keys_of (snd (set_channels_enabled names value app)) = keys_of app /\
  _channels_started (snd (set_channels_enabled names value app)) =
    _channels_started app.
Proof.
  rewrite set_channels_enabled_unfold.
  destruct (for_assign_enabled value
              (match names with [] => keys_of app | _ => names end) app)
    as (? & ? & _ & _ & _ & Hk & Hs & _).
  auto.
Qed.

(** The loop of [get_samples_readies] when every collected name is a key. *)
Lemma collect_sample_readies (names : list string) (app : App) :
  Forall (configured app) names ->
  exists readies,
    collect names
      (fun name => channel <- channels_getitem name ;;
                   ret (sample_readies channel)) app = (inr readies, app) /\
    readies_of app names readies.
Proof.
  induction 1 as [|n names Hn _ IH]; simpl.
  - exists []. split; [reflexivity | constructor].
  - destruct IH as (readies & Hcollect & Hreadies).
    apply dict_get_in_keys in Hn.
    destruct (dict_get n (_channels app)) as [ch|] eqn:Hget; [|congruence].
    exists (sample_readies ch :: readies). split.
    + unfold bind, channels_getitem, ret in *. rewrite Hget, Hcollect.
      reflexivity.
    + constructor; [|exact Hreadies]. exists ch. auto.
Qed.

Lemma get_samples_readies_configured (app : App) :
  Forall (configured app) (_channels_started app) ->
  exists readies m,
    readies_of app (_channels_started app) readies /\
    get_samples_readies app = (inr m, app) /\
    match readies with
    | [] => m = 0
    | _ :: _ => minimum_of m readies
    end.
Proof.
  intros H. destruct (collect_sample_readies _ app H) as (readies & Hc & Hr).
  assert (Hrun : get_samples_readies app =
                 (inr match readies with [] => 0 | x :: l => py_min x l end,
                  app)).
  { unfold get_samples_readies, bind, gets, ret in *. rewrite Hc.
    now destruct readies. }
  destruct readies as [|x l].
  - exists [], 0. auto.
  - exists (x :: l), (py_min x l). split; [exact Hr|].
    split; [exact Hrun | apply py_min_minimum].
Qed.

End MethodFacts.

(** ** Invariants of a run *)

Section RunFacts.

Context {Sample C T : Type}.
Context {counter_ops : PulseCounterOps Sample C}.
Context {timer_ops : PulseTimeGeneratorOps T}.

Local Abbreviation App := (CountingApp C T).

Lemma collect_reads {A B : Type} (f : A -> M C T B) (xs : list A) :
  (forall x app, snd (f x app) = app) ->
  forall app : App, snd (collect xs f app) = app.
Proof.
  intros Hf. induction xs as [|x xs IH]; intros app; simpl; [reflexivity|].
  unfold bind, ret. specialize (Hf x app).
  destruct (f x app) as [[e|y] app1]; simpl in *; subst; [reflexivity|].
  specialize (IH app).
  destruct (collect xs f app) as [[e|ys] app2]; simpl in *; now subst.
Qed.

Lemma get_samples_readies_reads (app : App) :
  snd (get_samples_readies app) = app.
Proof.
  assert (H : snd (collect (_channels_started app)
                     (fun name => channel <- channels_getitem name ;;
                                  ret (sample_readies channel)) app) = app).
  { apply collect_reads. intros x a. unfold bind, channels_getitem, ret.
    destruct (dict_get x (_channels a)); reflexivity. }
  unfold get_samples_readies, bind, gets, ret in *.
  match goal with
  | |- context [collect ?xs ?f app] =>
      destruct (collect xs f app) as [[e|[|x l]] app1]
  end; simpl in *; now subst.
Qed.

Lemma get_all_data_reads (app : App) :
  snd (get_all_data (Sample := Sample) app) = app.
Proof.
  rewrite get_all_data_unfold. destruct (_channels_started app); reflexivity.
Qed.

Lemma get_channel_data_reads (name : string) (start end_ : Z) (app : App) :
  snd (get_channel_data name start end_ app) = app.
Proof.
  rewrite get_channel_data_unfold.
  destruct (dict_get name (_channels app)); reflexivity.
Qed.

Lemma serve_keys (s : step C T) (app : App) :
  keys_of (serve s app) = keys_of app.
Proof.
  destruct s; simpl.
  - apply start_channels_keys.
  - unfold keys_of. now rewrite (proj1 (start_timer_channels _ _ _ _ _)).
  - apply start_all_channels.
  - apply stop_state.
  - now rewrite get_all_data_reads.
  - reflexivity.
  - now rewrite get_channel_data_reads.
  - apply set_channels_enabled_state.
  - reflexivity.
  - now rewrite get_samples_readies_reads.
  - reflexivity.
  - unfold keys_of, dict_keys. simpl. rewrite map_map. reflexivity.
Qed.

Lemma serve_started_kept (s : step C T) (app : App) :
  starts_channels s = None ->
  _channels_started (serve s app) = _channels_started app.
Proof.
  destruct s; simpl; intros H; try discriminate.
  - apply start_timer_channels.
  - apply stop_state.
  - now rewrite get_all_data_reads.
  - reflexivity.
  - now rewrite get_channel_data_reads.
  - apply set_channels_enabled_state.
  - reflexivity.
  - now rewrite get_samples_readies_reads.
  - reflexivity.
  - reflexivity.
Qed.

Lemma serve_started_new (s : step C T) (samples : Z) (app : App)
    (name : string) :
  starts_channels s = Some samples ->
  In name (_channels_started (serve s app)) <->
  started_and_enabled samples (_channels app) name.
Proof.
  destruct s; simpl; intros H; try discriminate; inversion H; subst.
  - apply start_channels_started.
  - rewrite (proj2 (start_all_channels _ _ _ _ _)).
    apply start_channels_started.
Qed.

Lemma serve_started_configured (s : step C T) (app : App) :
  Forall (configured app) (_channels_started app) ->
  Forall (configured (serve s app)) (_channels_started (serve s app)).
Proof.
  intros H. unfold configured. fold (keys_of (serve s app)).
  rewrite serve_keys.
  destruct (starts_channels s) as [samples|] eqn:Es.
  - apply Forall_forall. intros name Hname.
    apply (serve_started_new s samples app name Es) in Hname.
    now apply started_and_enabled_configured in Hname.
  - rewrite (serve_started_kept s app Es). exact H.
Qed.

Lemma build_channels_nodup (counters : list (string * C)) :
  NoDup (dict_keys (build_channels counters)).
Proof.
  unfold build_channels.
  assert (H : forall d : dict C,
             NoDup (dict_keys d) ->
             NoDup (dict_keys
                      (fold_left
                         (fun d entry => dict_set (fst entry) (snd entry) d)
                         counters d))).
  { induction counters as [|entry counters IH]; intros d Hd; simpl; auto.
    apply IH. now apply dict_set_nodup. }
  apply H. constructor.
Qed.

Lemma run_app (before after : list (step C T)) (app : App) :
  run (before ++ after) app = run after (run before app).
Proof.
  revert app. induction before as [|s before IH]; intros app; simpl; auto.
Qed.

Lemma run_keys (steps : list (step C T)) (app : App) :
  keys_of (run steps app) = keys_of app.
Proof.
  revert app. induction steps as [|s steps IH]; intros app; simpl; auto.
  now rewrite IH, serve_keys.
Qed.

Lemma run_started_kept (steps : list (step C T)) (app : App) :
  Forall (fun s => starts_channels s = None) steps ->
  _channels_started (run steps app) = _channels_started app.
Proof.
  intros H. revert app. induction H as [|s steps Hs _ IH]; intros app; simpl.
  - reflexivity.
  - now rewrite IH, serve_started_kept.
Qed.

Lemma run_started_configured (steps : list (step C T)) (app : App) :
  Forall (configured app) (_channels_started app) ->
  Forall (configured (run steps app)) (_channels_started (run steps app)).
Proof.
  revert app. induction steps as [|s steps IH]; intros app H; simpl; auto.
  apply IH. now apply serve_started_configured.
Qed.

End RunFacts.

(** * The behaviour of the coordinator's methods *)

Section Claims.

Context {Sample C T : Type}.
Context {counter_ops : PulseCounterOps Sample C}.
Context {timer_ops : PulseTimeGeneratorOps T}.

Local Abbreviation App := (CountingApp C T).

(** C1.  The description says that [get_all_data], when [_channels_started]
    is not empty, returns a dictionary whose keys are the started names, each
    with its channel's buffer.  The method does not: its loop indexes the
    list [_channels_started] with the name (where [get_samples_readies]
    indexes [_channels]), so the first iteration raises [TypeError] and
    no dictionary is returned; the state is left as it was. *)
Theorem get_all_data_raises_when_started (app : App) :
  _channels_started app <> [] ->
  get_all_data (Sample := Sample) app =
  (inl (TypeError "list indices must be integers or slices, not str"), app).
Proof.
  intros H. rewrite get_all_data_unfold.
  destruct (_channels_started app); [contradiction | reflexivity].
Qed.

(** C9.  In a state where [_channels_started] is empty (as [__init__]
    leaves it, or after a [start_channels] that collected no name),
    [get_all_data] returns the empty dictionary and does not raise. *)
Theorem get_all_data_nothing_started (app : App) :
  _channels_started app = [] ->
  get_all_data (Sample := Sample) app = (inr [], app).
Proof.
  intros H. rewrite get_all_data_unfold. now rewrite H.
Qed.

(** C3.  In every state the coordinator reaches from its construction,
    [get_samples_readies] returns normally, leaves the state as it is, and
    its value is the least [sample_readies] among the channels named in
    [_channels_started]; it is 0 when that list is empty. *)
Theorem get_samples_readies_minimum (timer : T)
    (counters : list (string * C)) (steps : list (step C T)) :
  let app := run steps (init timer counters) in
  exists readies m,
    readies_of app (_channels_started app) readies /\
    get_samples_readies app = (inr m, app) /\
    match _channels_started app with
    | [] => m = 0
    | _ :: _ => minimum_of m readies
    end.
Proof.
  intros app.
  assert (Hconf : Forall (configured app) (_channels_started app)).
  { apply run_started_configured. constructor. }
  destruct (get_samples_readies_configured app Hconf)
    as (readies & m & Hr & Hrun & Hm).
  exists readies, m. split; [exact Hr|]. split; [exact Hrun|].
  destruct Hr; exact Hm.
Qed.

(** C4.  [start_all] runs [start_channels] and then [start_timer]: the
    calls it adds are calls of [start] on channels, followed by the one call
    of the timer's [start] when [start_channels] returned.  When
    [start_channels] raises, [start_all] raises the same exception in the
    state [start_channels] left, and the timer's [start] has not been
    called: no [TimerStart] is added and the timer object is untouched. *)
Theorem start_all_channels_then_timer (samples : Z)
    (high_time low_time initial_delay : Q) (app : App) :
  let channels_run := start_channels samples app in
  let all_run := start_all samples high_time low_time initial_delay app in
  exists starts,
    calls (snd channels_run) = calls app ++ starts /\
    forallb is_counter_start starts = true /\
    match fst channels_run with
    | inr _ =>
        all_run =
          start_timer samples high_time low_time initial_delay
            (snd channels_run) /\
        calls (snd all_run) =
          calls app ++ starts
            ++ [TimerStart samples high_time low_time initial_delay]
    | inl e =>
        all_run = (inl e, snd channels_run) /\
        calls (snd all_run) = calls app ++ starts /\
        _timer (snd all_run) = _timer app
    end.
Proof.
  intros channels_run all_run. unfold all_run. rewrite start_all_unfold.
  fold channels_run.
  assert (Hstarts : exists starts,
             calls (snd channels_run) = calls app ++ starts /\
             forallb is_counter_start starts = true /\
             _timer (snd channels_run) = _timer app).
  { unfold channels_run, start_channels.
    destruct (start_items samples _ _ _) as [[[r items] st] log] eqn:E.
    destruct (start_items_calls _ _ _ _ _ _ _ _ E)
      as (ok & rest & _ & _ & _ & Hr). simpl.
    assert (Hall : forall l,
               forallb is_counter_start
                 (map (fun n => CounterStart n samples) l) = true).
    { induction l; simpl; auto. }
    destruct r as [e|].
    - destruct Hr as (bad & rest' & _ & _ & _ & ->). eauto.
    - destruct Hr as (_ & _ & ->). eauto. }
  destruct Hstarts as (starts & Hcalls & Hall & Htimer).
  exists starts. split; [exact Hcalls|]. split; [exact Hall|].
  destruct (fst channels_run) as [e|u].
  - simpl. auto.
  - split; [reflexivity|]. unfold start_timer.
    destruct (timer_start _ _ _ _ _). simpl.
    rewrite Hcalls. now rewrite app_assoc.
Qed.

(** C5.  For a configured name, [get_channel_data(name, start, end)]
    returns the part of the channel's buffer from [start] (included) to
    [end] (excluded), a negative bound counting from the end of the buffer:
    the result has one element for each position from the one [start]
    stands for up to the one [end] stands for, and its [k]-th element is the
    buffer's element [k] places after the first.  On a buffer of five
    elements, bounds [0, -1] give the first four and [2, -1] give the third
    and fourth. *)
Theorem get_channel_data_slice (app : App) (name : string) (channel : C)
    (start end_ : Z) :
  dict_get name (_channels app) = Some channel ->
  let len := Z.of_nat (List.length (data channel)) in
  let lo := bound_position start len in
  let hi := bound_position end_ len in
  (exists values,
     get_channel_data name start end_ app = (inr values, app) /\
     List.length values = Z.to_nat (hi - lo) /\
     forall k, (k < List.length values)%nat ->
       nth_error values k = nth_error (data channel) (Z.to_nat lo + k)) /\
  (forall a b c d e,
     data channel = [a; b; c; d; e] ->
     get_channel_data name 0 (-1) app = (inr [a; b; c; d], app) /\
     get_channel_data_default name app = (inr [a; b; c; d], app) /\
     get_channel_data name 2 (-1) app = (inr [c; d], app)).
Proof.
  intros Hget len lo hi. split.
  - exists (py_slice (data channel) start end_).
    rewrite get_channel_data_unfold, Hget.
    split; [reflexivity|]. split.
    + apply py_slice_length.
    + intros k Hk. now apply py_slice_nth.
  - intros a b c d e Hdata. unfold get_channel_data_default.
    rewrite !get_channel_data_unfold, Hget, Hdata. auto.
Qed.

(** C10.  What [get_channel_data] returns for a configured name depends on
    the channel's buffer only: in two states whose channel of that name
    holds the same buffer, the result is the same slice of it, whatever the
    channels' [enabled] flags and whatever [_channels_started] holds in
    either state. *)
Theorem get_channel_data_ignores_enabled_and_started (app1 app2 : App)
    (name : string) (channel1 channel2 : C) (start end_ : Z) :
  dict_get name (_channels app1) = Some channel1 ->
  dict_get name (_channels app2) = Some channel2 ->
  data channel1 = data channel2 ->
  get_channel_data name start end_ app1 =
    (inr (py_slice (data channel1) start end_), app1) /\
  fst (get_channel_data name start end_ app2) =
    fst (get_channel_data name start end_ app1).
Proof.
  intros H1 H2 Hdata. rewrite !get_channel_data_unfold, H1, H2, Hdata.
  auto.
Qed.

(** C6, as amended.  [set_channels_enabled(names, enabled)] goes through
    [names], or through every configured name when [names] is empty, in
    order, assigning the flag of each channel it reaches.  When every name
    is configured it returns, having set the flag of each of them and of no
    other channel.  At the first name that is not configured it raises
    [KeyError] for that name: the flags of the names before it have been
    set, every other channel is as it was.  The keys are left unchanged. *)
Theorem set_channels_enabled_reached (names : list string) (value : bool)
    (app : App) :
  let targets := match names with [] => keys_of app | _ => names end in
  let result := set_channels_enabled names value app in
  exists reached rest,
    targets = reached ++ rest /\
    Forall (configured app) reached /\
    match rest with
    | [] => fst result = inr tt
    | bad :: _ => ~ configured app bad /\ fst result = inl (KeyError bad)
    end /\
    (Forall (configured app) targets -> rest = []) /\
    (names = [] -> rest = []) /\
    keys_of (snd result) = keys_of app /\
    forall name,
      (In name reached ->
       exists channel,
         dict_get name (_channels (snd result)) = Some channel /\
         enabled channel = value) /\
      (~ In name reached ->
       dict_get name (_channels (snd result)) =
       dict_get name (_channels app)).
Proof.
  intros targets result. unfold result.
  rewrite set_channels_enabled_unfold. fold targets.
  destruct (for_assign_enabled value targets app)
    as (reached & rest & Ht & Hreached & Hrest & Hk & _ & _ & _ & Hflags).
  exists reached, rest.
  assert (Hall : Forall (configured app) targets -> rest = []).
  { intros Hconf. destruct rest as [|bad rest']; [reflexivity|].
    destruct Hrest as [Hbad _]. exfalso. apply Hbad.
    rewrite Forall_forall in Hconf. apply Hconf. rewrite Ht.
    apply in_or_app. right. now left. }
  repeat (split; [assumption|]).
  split; [|split; assumption].
  intros ->. apply Hall. unfold targets. apply Forall_forall. auto.
Qed.

(** C7, as amended.  [stop] calls the timer's [stop] first.  When that
    raises, [stop] raises with it and no channel is stopped.  When it
    returned, [stop] calls the [stop] of the configured channels in
    configuration order, started or not and whatever their flags, each one
    provided the calls before it returned: it goes on up to and including
    the first channel whose [stop] raises, raises that exception, and leaves
    the channels after it alone; when every [stop] returns, [stop] returns
    and every configured channel has been stopped.  So [stop] raises nothing
    of its own, in particular nothing for a channel that was never started,
    and neither its result nor its calls depend on [_channels_started],
    which it leaves as it is. *)
Theorem stop_timer_then_channels (app : App) :
  let result := stop app in
  _timer (snd result) = snd (timer_stop (_timer app)) /\
  _channels_started (snd result) = _channels_started app /\
  (forall names,
     fst (stop (with_started names app)) = fst result /\
     calls (snd (stop (with_started names app))) = calls (snd result)) /\
  (fst (timer_stop (_timer app)) = None ->
   Forall stop_ok (_channels app) ->
   fst result = inr tt /\
   calls (snd result) =
     calls app ++ TimerStop :: map CounterStop (keys_of app)) /\
  match fst (timer_stop (_timer app)) with
  | Some e =>
      fst result = inl e /\
      calls (snd result) = calls app ++ [TimerStop] /\
      _channels (snd result) = _channels app
  | None =>
      exists returned rest,
        _channels app = returned ++ rest /\
        Forall stop_ok returned /\
        match rest with
        | [] =>
            fst result = inr tt /\
            calls (snd result) =
              calls app ++ TimerStop :: map CounterStop (keys_of app) /\
            _channels (snd result) = map after_stop (_channels app)
        | bad :: rest' =>
            exists e,
              fst (counter_stop (snd bad)) = Some e /\
              fst result = inl e /\
              calls (snd result) =
                calls app
                  ++ TimerStop
                  :: map CounterStop (dict_keys returned ++ [fst bad]) /\
              _channels (snd result) =
                map after_stop returned ++ after_stop bad :: rest'
        end
  end.
Proof.
  intros result. unfold result. clear result.
  pose proof (stop_ignores_started app) as Hindep.
  destruct (stop_state app) as [_ Hstarted]. revert Hindep Hstarted.
  destruct (stop app) as [res app'] eqn:Estop. cbn [fst snd].
  intros Hindep Hstarted.
  rewrite stop_unfold in Estop. unfold stop_timer in Estop.
  destruct (timer_stop (_timer app)) as [[e|] timer'] eqn:Et; simpl in Estop.
  - inversion Estop; subst. simpl.
    split; [reflexivity|]. split; [reflexivity|]. split; [exact Hindep|].
    split; [discriminate | auto].
  - unfold stop_channels in Estop. simpl in Estop.
    destruct (stop_items _ _) as [[r items] log] eqn:E.
    inversion Estop; subst. simpl.
    destruct (stop_items_calls _ _ _ _ _ E) as (ok & rest & Hitems & Hok & Hr).
    split; [reflexivity|]. split; [reflexivity|]. split; [exact Hindep|].
    destruct r as [e|].
    + destruct Hr as (bad & rest' & -> & Hbad & -> & ->).
      split.
      { intros _ Hall. exfalso. rewrite Hitems in Hall.
        apply Forall_app in Hall. destruct Hall as [_ Hall].
        inversion Hall; subst. unfold stop_ok in *. congruence. }
      exists ok, (bad :: rest').
      split; [exact Hitems|]. split; [exact Hok|].
      exists e. split; [exact Hbad|]. split; [reflexivity|].
      split; [now rewrite <- app_assoc | reflexivity].
    + destruct Hr as (-> & -> & ->). rewrite app_nil_r in Hitems.
      assert (Hcalls : (calls app ++ [TimerStop]) ++ map CounterStop (dict_keys ok)
                       = calls app ++ TimerStop :: map CounterStop (keys_of app)).
      { unfold keys_of. rewrite Hitems, <- app_assoc. reflexivity. }
      split; [intros _ _; split; [reflexivity | exact Hcalls]|].
      exists ok, []. rewrite app_nil_r.
      split; [exact Hitems|]. split; [exact Hok|].
      split; [reflexivity|]. split; [exact Hcalls|].
      now rewrite Hitems.
Qed.

(** C2, as amended.  [start_channels(samples)] calls [start(samples)] on
    the configured channels in configuration order whatever their [enabled]
    flags, up to the first [start] that raises (on every one when none
    does), and it calls no [stop].  The flag decides only what is collected:
    [_channels_started] holds, in order, the names of the channels whose
    [start] returned and whose flag is true right after it, so a channel
    whose flag is false then is not collected. *)
Theorem start_channels_starts_every_channel (samples : Z) (app : App) :
  let result := start_channels samples app in
  exists reached rest,
    _channels app = reached ++ rest /\
    Forall (start_ok samples) reached /\
    _channels_started (snd result) =
      dict_keys (filter (fun item => enabled (snd item))
                   (map (after_start samples) reached)) /\
    match fst result with
    | inr _ =>
        rest = [] /\
        calls (snd result) =
          calls app ++ map (fun n => CounterStart n samples) (keys_of app)
    | inl e =>
        exists bad rest',
          rest = bad :: rest' /\
          fst (counter_start samples (snd bad)) = Some e /\
          calls (snd result) =
            calls app ++ map (fun n => CounterStart n samples)
                           (dict_keys reached ++ [fst bad])
    end.
Proof.
  intros result. unfold result, start_channels. clear result.
  destruct (start_items samples _ _ _) as [[[r items] st] log] eqn:E.
  destruct (start_items_calls _ _ _ _ _ _ _ _ E)
    as (ok & rest & Hitems & Hok & Hst & Hr). simpl.
  exists ok, rest. split; [exact Hitems|]. split; [exact Hok|].
  split; [exact Hst|].
  destruct r as [e|]; simpl.
  - destruct Hr as (bad & rest' & -> & Hbad & _ & ->). eauto.
  - destruct Hr as (-> & _ & ->). split; [reflexivity|].
    unfold keys_of. rewrite Hitems, app_nil_r. reflexivity.
Qed.

(** C8.  In every state the coordinator reaches from its construction, by
    calls of its methods and progress of the hardware in any order, the
    names in [_channels_started] are keys of [_channels]; the list is empty
    as long as [start_channels] has not run (by itself or in [start_all]);
    and after that a name is in it exactly when, in the most recent run of
    [start_channels], the channel's [start] was called and returned and its
    flag was true right after.  The keys of [_channels] are distinct, so a
    name stands for one channel. *)
Theorem started_names_invariant (timer : T) (counters : list (string * C))
    (steps : list (step C T)) :
  let app := run steps (init timer counters) in
  NoDup (dict_keys (_channels app)) /\
  incl (_channels_started app) (dict_keys (_channels app)) /\
  (Forall (fun s => starts_channels s = None) steps ->
   _channels_started app = []) /\
  (forall before s samples after,
     steps = before ++ s :: after ->
     starts_channels s = Some samples ->
     Forall (fun s' => starts_channels s' = None) after ->
     forall name,
       In name (_channels_started app) <->
       started_and_enabled samples
         (_channels (run before (init timer counters))) name).
Proof.
  intros app. split; [|split; [|split]].
  - fold (keys_of app). unfold app. rewrite run_keys.
    apply build_channels_nodup.
  - assert (H : Forall (configured app) (_channels_started app)).
    { apply run_started_configured. constructor. }
    rewrite Forall_forall in H. exact H.
  - intros H. unfold app. now rewrite run_started_kept.
  - intros before s samples after -> Hs Hafter name. unfold app.
    rewrite run_app. simpl. rewrite run_started_kept by exact Hafter.
    now apply serve_started_new.
Qed.

End Claims.

(** * The coordinator on the simulated devices *)

Section Simulation.

Local Open Scope string_scope.

Lemma get_all_data_raises_when_started_witness :
  _channels_started Sim.app_AB_started = ["A"] /\
  get_all_data (Sample := Z) Sim.app_AB_started =
  (inl (TypeError "list indices must be integers or slices, not str"),
   Sim.app_AB_started).
Proof.
  split; [reflexivity|].
  apply get_all_data_raises_when_started. vm_compute. discriminate.
Defined.

Lemma get_all_data_nothing_started_witness :
  get_all_data (Sample := Z) Sim.app_AB = (inr [], Sim.app_AB).
Proof.
  apply get_all_data_nothing_started. reflexivity.
Defined.

Lemma get_samples_readies_minimum_witness :
  exists m,
    get_samples_readies
      (run Sim.steps_AD
         (init (Sim.mkTimer false false)
            [("A", Sim.chanA); ("D", Sim.chanD)])) =
    (inr m,
     run Sim.steps_AD
       (init (Sim.mkTimer false false) [("A", Sim.chanA); ("D", Sim.chanD)]))
    /\ m = 3.
Proof.
  destruct (get_samples_readies_minimum (Sim.mkTimer false false)
              [("A", Sim.chanA); ("D", Sim.chanD)] Sim.steps_AD)
    as (readies & m & _ & Hrun & _).
  exists m. split; [exact Hrun|].
  vm_compute in Hrun. congruence.
Defined.

Lemma start_all_channels_then_timer_witness :
  fst (start_all 10 (1 # 100) (1 # 100) 0 Sim.app_ACB) =
    inl (DriverError 1) /\
  calls (snd (start_all 10 (1 # 100) (1 # 100) 0 Sim.app_ACB)) =
    [CounterStart "A" 10; CounterStart "C" 10].
Proof.
  destruct (start_all_channels_then_timer 10 (1 # 100) (1 # 100) 0
              Sim.app_ACB) as (starts & Hstarts & _ & H).
  change (fst (start_channels 10 Sim.app_ACB))
    with (@inl exn unit (DriverError 1)) in H.
  destruct H as (Hall & _ & _). rewrite Hall. split; reflexivity.
Defined.

Lemma get_channel_data_slice_witness :
  get_channel_data "A" 0 (-1) Sim.app_AB = (inr [1; 2; 3; 4], Sim.app_AB) /\
  get_channel_data "A" 2 (-1) Sim.app_AB = (inr [3; 4], Sim.app_AB).
Proof.
  destruct (get_channel_data_slice Sim.app_AB "A" Sim.chanA 0 (-1) eq_refl)
    as [_ H].
  destruct (H 1 2 3 4 5 eq_refl) as (H1 & _ & H2). split; assumption.
Defined.

Lemma get_channel_data_ignores_enabled_and_started_witness :
  option_map enabled (dict_get "A" (_channels Sim.app_A_disabled)) =
    Some false /\
  fst (get_channel_data "A" 1 4 Sim.app_A_disabled) = inr [2; 3; 4].
Proof.
  split; [reflexivity|].
  destruct (get_channel_data_ignores_enabled_and_started
              Sim.app_AB Sim.app_A_disabled "A" Sim.chanA
              (Sim.c_set_enabled false Sim.chanA) 1 4) as [H1 H2].
  - reflexivity.
  - reflexivity.
  - reflexivity.
  - rewrite H2, H1. reflexivity.
Defined.

(** On [app_AB], where [A] is enabled,
    [set_channels_enabled(['A', 'Z'], False)] raises [KeyError] for ['Z']
    and has disabled [A] by then: the failed call changed the state. *)
Lemma set_channels_enabled_partial_on_error :
  option_map enabled (dict_get "A" (_channels Sim.app_AB)) = Some true /\
  fst (set_channels_enabled ["A"; "Z"] false Sim.app_AB) =
    inl (KeyError "Z") /\
  option_map enabled
    (dict_get "A"
       (_channels (snd (set_channels_enabled ["A"; "Z"] false Sim.app_AB)))) =
    Some false.
Proof. repeat split. Qed.

Lemma set_channels_enabled_reached_witness :
  fst (set_channels_enabled [] false Sim.app_AB) = inr tt /\
  keys_of (snd (set_channels_enabled [] false Sim.app_AB)) = ["A"; "B"].
Proof.
  destruct (set_channels_enabled_reached [] false Sim.app_AB)
    as (reached & rest & _ & _ & Hrest & _ & Hnil & Hkeys & _).
  rewrite (Hnil eq_refl) in Hrest. split; [exact Hrest | exact Hkeys].
Defined.

(** On [app_busy_timer] the timer's [stop] raises: [stop] raises with it
    and has called [stop] on neither configured channel. *)
Lemma stop_busy_timer_stops_no_channel :
  keys_of Sim.app_busy_timer = ["A"; "B"] /\
  fst (stop Sim.app_busy_timer) = inl (DriverError 4) /\
  calls (snd (stop Sim.app_busy_timer)) = [TimerStop].
Proof. repeat split. Qed.

Lemma stop_timer_then_channels_witness :
  (fst (stop Sim.app_AB) = inr tt /\
   calls (snd (stop Sim.app_AB)) =
     [TimerStop; CounterStop "A"; CounterStop "B"]) /\
  (fst (stop Stuck.app_ACB) = inl (DriverError 2) /\
   calls (snd (stop Stuck.app_ACB)) =
     [TimerStop; CounterStop "A"; CounterStop "C"]).
Proof.
  split.
  - destruct (stop_timer_then_channels Sim.app_AB) as (_ & _ & _ & Hok & _).
    apply Hok; [reflexivity | repeat constructor].
  - destruct (stop_timer_then_channels Stuck.app_ACB) as (_ & _ & _ & _ & H).
    change (fst (timer_stop (_timer Stuck.app_ACB))) with (@None exn) in H.
    destruct H as (returned & rest & Hsplit & Hok & Hrest).
    change (_channels Stuck.app_ACB)
      with [("A", Stuck.chanA); ("C", Stuck.chanC); ("B", Stuck.chanB)]
      in Hsplit.
    destruct returned as [|r1 [|r2 returned]]; simpl in Hsplit.
    + subst rest. destruct Hrest as (e & Hbad & _). discriminate Hbad.
    + inversion Hsplit; subst.
      destruct Hrest as (e & Hbad & Hres & Hcalls & _).
      simpl in Hbad. inversion Hbad; subst e.
      split; [exact Hres | exact Hcalls].
    + inversion Hsplit; subst. inversion Hok as [|? ? _ Hok']; subst.
      inversion Hok' as [|? ? Hc _]; subst. discriminate Hc.
Defined.

(** On [app_AB], where [B] is disabled, [start_channels(10)] calls
    [start(10)] on [B]; [B] is disabled before and after, and not
    collected. *)
Lemma start_channels_starts_disabled_channel :
  option_map enabled (dict_get "B" (_channels Sim.app_AB)) = Some false /\
  In (CounterStart "B" 10) (calls (snd (start_channels 10 Sim.app_AB))) /\
  option_map enabled
    (dict_get "B" (_channels (snd (start_channels 10 Sim.app_AB)))) =
    Some false /\
  _channels_started (snd (start_channels 10 Sim.app_AB)) = ["A"].
Proof.
  split; [reflexivity|]. split; [simpl; auto|]. split; reflexivity.
Qed.

Lemma start_channels_starts_every_channel_witness :
  calls (snd (start_channels 10 Sim.app_AB)) =
    [CounterStart "A" 10; CounterStart "B" 10] /\
  _channels_started (snd (start_channels 10 Sim.app_AB)) = ["A"].
Proof.
  destruct (start_channels_starts_every_channel 10 Sim.app_AB)
    as (reached & rest & _ & _ & _ & H).
  change (fst (start_channels 10 Sim.app_AB)) with (@inr exn unit tt) in H.
  destruct H as [_ H]. split; [exact H | reflexivity].
Defined.

Lemma started_names_invariant_witness :
  In "A"
    (_channels_started
       (run Sim.steps_AB
          (init (Sim.mkTimer false false)
             [("A", Sim.chanA); ("B", Sim.chanB)]))) <->
  started_and_enabled 10
    (_channels
       (init (Sim.mkTimer false false) [("A", Sim.chanA); ("B", Sim.chanB)]))
    "A".
Proof.
  destruct (started_names_invariant (Sim.mkTimer false false)
              [("A", Sim.chanA); ("B", Sim.chanB)] Sim.steps_AB)
    as (_ & _ & _ & H).
  apply (H [] (StartAll 10 (1 # 100) (1 # 100) 0) 10
           [SetChannelsEnabled ["A"] false; Stop]).
  - reflexivity.
  - reflexivity.
  - repeat constructor.
Defined.

End Simulation.

(** * Further properties of the methods *)

(** ** Dictionaries built key by key *)

Section DictBuild.

Context {V : Type}.

Lemma dict_set_fresh (k : string) (v : V) (d : dict V) :
  ~ In k (dict_keys d) -> dict_set k v d = d ++ [(k, v)].
Proof.
  induction d as [|[k' v'] d IH]; simpl; [reflexivity|].
  intros Hin. destruct (String.eqb_spec k k') as [->|Hne].
  - exfalso. apply Hin. now left.
  - f_equal. apply IH. tauto.
Qed.

Lemma dict_set_keys_in (k k' : string) (v : V) (d : dict V) :
  In k' (dict_keys (dict_set k v d)) <-> k' = k \/ In k' (dict_keys d).
Proof.
  destruct (in_dec string_dec k (dict_keys d)) as [Hin|Hout].
  - rewrite dict_set_keys by exact Hin. split; [auto|].
    intros [->|H]; assumption.
  - rewrite dict_set_keys_new by exact Hout. rewrite in_app_iff. simpl.
    split; [intros [H|[H|[]]]; auto | intros [H|H]; auto].
Qed.

Lemma dict_get_in_nodup (k : string) (v : V) (d : dict V) :
  NoDup (dict_keys d) -> In (k, v) d -> dict_get k d = Some v.
Proof.
  induction d as [|[k' v'] d IH]; simpl; [tauto|].
  intros Hd [Heq|Hin].
  - inversion Heq; subst. now rewrite String.eqb_refl.
  - inversion Hd as [|? ? Hk Hd']; subst.
    destruct (String.eqb_spec k k') as [->|Hne]; [|now apply IH].
    exfalso. apply Hk. change k' with (fst (k', v)).
    unfold dict_keys. now apply in_map.
Qed.

(** A loop that stores one entry per element under keys that are new and
    distinct appends the entries in order. *)
Lemma fold_dict_set_fresh {A : Type} (key : A -> string) (val : A -> V)
    (l : list A) :
  forall acc : dict V,
    NoDup (dict_keys acc ++ map key l) ->
    fold_left (fun d e => dict_set (key e) (val e) d) l acc =
    acc ++ map (fun e => (key e, val e)) l.
Proof.
  induction l as [|a l IH]; intros acc H; simpl.
  - now rewrite app_nil_r.
  - assert (Hfresh : ~ In (key a) (dict_keys acc)).
    { simpl in H. apply NoDup_remove_2 in H. intros Hin. apply H.
      apply in_or_app. now left. }
    rewrite dict_set_fresh by exact Hfresh. rewrite IH.
    + now rewrite <- app_assoc.
    + unfold dict_keys in *. rewrite map_app. simpl.
      rewrite <- app_assoc. exact H.
Qed.

Lemma fold_dict_set_keys {A : Type} (key : A -> string) (val : A -> V)
    (l : list A) (k : string) :
  forall acc : dict V,
    In k (dict_keys (fold_left (fun d e => dict_set (key e) (val e) d) l acc))
    <-> In k (dict_keys acc) \/ In k (map key l).
Proof.
  induction l as [|a l IH]; intros acc; simpl; [tauto|].
  rewrite IH, dict_set_keys_in. intuition.
Qed.

Lemma dict_get_map_values {W : Type} (f : V -> W) (k : string) (d : dict V) :
  dict_get k (map (fun item => (fst item, f (snd item))) d) =
  option_map f (dict_get k d).
Proof.
  induction d as [|[k' v] d IH]; simpl; [reflexivity|].
  destruct (String.eqb k k'); [reflexivity | exact IH].
Qed.

Lemma map_pair_eta {A B : Type} (l : list (A * B)) :
  map (fun e => (fst e, snd e)) l = l.
Proof.
  induction l as [|[a b] l IH]; simpl; [reflexivity | now rewrite IH].
Qed.

End DictBuild.

(** ** Slices of a buffer *)

Lemma py_slice_default {A : Type} (l : list A) :
  py_slice l 0 (-1) = removelast l.
Proof.
  unfold py_slice, adjust_index.
  rewrite removelast_firstn_len.
  destruct l as [|x l]; [reflexivity|].
  set (len := Z.of_nat (List.length (x :: l))).
  assert (Hlen : 0 < len) by (unfold len; simpl; lia).
  destruct (Z.ltb_spec 0 0); [lia|].
  destruct (Z.leb_spec len 0); [lia|].
  destruct (Z.ltb_spec (-1) 0); [|lia].
  destruct (Z.ltb_spec (-1 + len) 0); [lia|].
  replace (Z.to_nat (-1 + len - 0)) with (pred (List.length (x :: l)))
    by (unfold len; lia).
  reflexivity.
Qed.

Lemma py_slice_segment {A : Type} (l : list A) (start stop : Z) :
  exists before after,
    l = before ++ py_slice l start stop ++ after /\
    List.length before =
      Z.to_nat (bound_position start (Z.of_nat (List.length l))).
Proof.
  pose proof (adjust_index_range start (Z.of_nat (List.length l))) as Hlo.
  rewrite <- adjust_index_position by lia. unfold py_slice.
  set (lo := adjust_index start (Z.of_nat (List.length l))) in *.
  set (hi := adjust_index stop (Z.of_nat (List.length l))).
  exists (firstn (Z.to_nat lo) l),
         (skipn (Z.to_nat (hi - lo)) (skipn (Z.to_nat lo) l)).
  split.
  - now rewrite !firstn_skipn.
  - rewrite length_firstn. lia.
Qed.

Lemma py_slice_to_end {A : Type} (l : list A) (start stop : Z) :
  0 <= start -> Z.of_nat (List.length l) <= stop ->
  py_slice l start stop = skipn (Z.to_nat start) l.
Proof.
  intros Hs He. unfold py_slice, adjust_index.
  set (len := Z.of_nat (List.length l)) in *.
  assert (Hlen : 0 <= len) by (unfold len; lia).
  destruct (Z.ltb_spec start 0); [lia|].
  destruct (Z.ltb_spec stop 0); [lia|].
  destruct (Z.leb_spec len stop); [|lia].
  destruct (Z.leb_spec len start).
  - rewrite !skipn_all2 by (unfold len in *; lia). now rewrite firstn_nil.
  - apply firstn_all2. rewrite length_skipn. unfold len in *. lia.
Qed.

(** ** Runs in which no collaborator raises, and flags read back *)

Section MoreFacts.

Context {Sample C T : Type}.
Context {counter_ops : PulseCounterOps Sample C}.
Context {timer_ops : PulseTimeGeneratorOps T}.

Local Abbreviation App := (CountingApp C T).

Lemma start_channels_all_ok (samples : Z) (app : App) :
  Forall (start_ok samples) (_channels app) ->
  start_channels samples app =
  (inr tt,
   mkApp (_timer app)
     (map (after_start samples) (_channels app))
     (dict_keys (filter (fun item => enabled (snd item))
                   (map (after_start samples) (_channels app))))
     (calls app ++ map (fun n => CounterStart n samples) (keys_of app))).
Proof.
  intros Hall. unfold start_channels.
  destruct (start_items samples _ _ _) as [[[r items] st] log] eqn:E.
  destruct (start_items_calls _ _ _ _ _ _ _ _ E)
    as (ok & rest & Hitems & _ & Hst & Hr).
  destruct r as [e|].
  - exfalso. destruct Hr as (bad & rest' & -> & Hbad & _).
    rewrite Hitems in Hall. apply Forall_app in Hall.
    destruct Hall as [_ Hall]. inversion Hall; subst.
    unfold start_ok in *. congruence.
  - destruct Hr as (-> & -> & ->). rewrite app_nil_r in Hitems.
    unfold keys_of. rewrite Hst, Hitems. reflexivity.
Qed.

Lemma stop_channels_all_ok (app : App) :
  Forall stop_ok (_channels app) ->
  stop_channels app =
  (inr tt,
   mkApp (_timer app) (map after_stop (_channels app))
     (_channels_started app)
     (calls app ++ map CounterStop (keys_of app))).
Proof.
  intros Hall. unfold stop_channels.
  destruct (stop_items _ _) as [[r items] log] eqn:E.
  destruct (stop_items_calls _ _ _ _ _ E) as (ok & rest & Hitems & _ & Hr).
  destruct r as [e|].
  - exfalso. destruct Hr as (bad & rest' & -> & Hbad & _).
    rewrite Hitems in Hall. apply Forall_app in Hall.
    destruct Hall as [_ Hall]. inversion Hall; subst.
    unfold stop_ok in *. congruence.
  - destruct Hr as (-> & -> & ->). rewrite app_nil_r in Hitems.
    unfold keys_of. rewrite Hitems. reflexivity.
Qed.

Lemma get_channels_enabled_nodup (app : App) :
  NoDup (keys_of app) ->
  get_channels_enabled app = (inr (flags_of (_channels app)), app).
Proof.
  intros Hnd. unfold get_channels_enabled, gets, flags_of. f_equal. f_equal.
  exact (fold_dict_set_fresh fst (fun item => enabled (snd item))
           (_channels app) [] Hnd).
Qed.

Lemma build_channels_distinct (counters : list (string * C)) :
  NoDup (map fst counters) -> build_channels counters = counters.
Proof.
  intros Hnd. unfold build_channels.
  rewrite (fold_dict_set_fresh fst snd counters []) by exact Hnd.
  apply map_pair_eta.
Qed.

Lemma build_channels_keys (counters : list (string * C)) (name : string) :
  In name (dict_keys (build_channels counters)) <->
  In name (map fst counters).
Proof.
  unfold build_channels.
  rewrite (fold_dict_set_keys fst snd counters name []). simpl. tauto.
Qed.

Lemma run_keys_nodup (timer : T) (counters : list (string * C))
    (steps : list (step C T)) :
  NoDup (keys_of (run steps (init timer counters))).
Proof.
  rewrite run_keys. apply build_channels_nodup.
Qed.

End MoreFacts.

(** ** Properties of the methods beyond the claims *)

Section Extras.

Context {Sample C T : Type}.
Context {counter_ops : PulseCounterOps Sample C}.
Context {timer_ops : PulseTimeGeneratorOps T}.

Local Abbreviation App := (CountingApp C T).

Lemma flags_of_keys (items : dict C) :
  dict_keys (flags_of items) = dict_keys items.
Proof.
  unfold flags_of, dict_keys. rewrite map_map. reflexivity.
Qed.

Lemma after_start_keys (samples : Z) (items : dict C) :
  dict_keys (map (after_start samples) items) = dict_keys items.
Proof.
  unfold dict_keys. rewrite map_map. reflexivity.
Qed.

(** X1.  When the configured names are distinct, [get_names] returns them
    in configuration order in every state the coordinator reaches, whatever
    was started, stopped, enabled or disabled before, and leaves the state
    as it is. *)
Theorem get_names_configuration_order (timer : T)
    (counters : list (string * C)) (steps : list (step C T)) :
  NoDup (map fst counters) ->
  get_names (run steps (init timer counters)) =
  (inr (map fst counters), run steps (init timer counters)).
Proof.
  intros Hnd. unfold get_names, gets. f_equal. f_equal.
  fold (keys_of (run steps (init timer counters))). rewrite run_keys.
  unfold keys_of, init. simpl. now rewrite build_channels_distinct.
Qed.

(** X2.  In every state the coordinator reaches, [get_channels_enabled]
    returns a dictionary with the configured names as keys, in configuration
    order, each with the present [enabled] flag of its channel, and leaves
    the state as it is. *)
Theorem get_channels_enabled_flags (timer : T)
    (counters : list (string * C)) (steps : list (step C T)) :
  let app := run steps (init timer counters) in
  exists status,
    get_channels_enabled app = (inr status, app) /\
    dict_keys status = keys_of app /\
    forall name,
      dict_get name status = option_map enabled (dict_get name (_channels app)).
Proof.
  intros app. exists (flags_of (_channels app)).
  split; [apply get_channels_enabled_nodup, run_keys_nodup|].
  split; [apply flags_of_keys|].
  intros name. apply dict_get_map_values.
Qed.

(** X3.  In every state the coordinator reaches, when
    [set_channels_enabled(names, value)] returns, [get_channels_enabled]
    afterwards reports [value] for each name of [names] (for every
    configured name when [names] is empty) and, for every other name, what
    it reported before. *)
Theorem set_then_get_channels_enabled (timer : T)
    (counters : list (string * C)) (steps : list (step C T))
    (names : list string) (value : bool) :
  let app := run steps (init timer counters) in
  let targets := match names with [] => keys_of app | _ => names end in
  let app' := snd (set_channels_enabled names value app) in
  fst (set_channels_enabled names value app) = inr tt ->
  exists status status',
    get_channels_enabled app = (inr status, app) /\
    get_channels_enabled app' = (inr status', app') /\
    dict_keys status' = dict_keys status /\
    forall name,
      (In name targets -> dict_get name status' = Some value) /\
      (~ In name targets -> dict_get name status' = dict_get name status).
Proof.
  intros app targets app' Hok.
  assert (Hnd : NoDup (keys_of app)) by apply run_keys_nodup.
  assert (Hkeys : keys_of app' = keys_of app)
    by apply set_channels_enabled_state.
  exists (flags_of (_channels app)), (flags_of (_channels app')).
  split; [now apply get_channels_enabled_nodup|].
  split; [apply get_channels_enabled_nodup; now rewrite Hkeys|].
  split; [rewrite !flags_of_keys; exact Hkeys|].
  assert (Hrun : set_channels_enabled names value app =
                 for_ targets (assign_enabled value) app)
    by apply set_channels_enabled_unfold.
  destruct (for_assign_enabled value targets app)
    as (reached & rest & Ht & _ & Hrest & _ & _ & _ & _ & Hflags).
  rewrite <- Hrun in Hrest, Hflags. fold app' in Hflags.
  destruct rest as [|bad rest'].
  - rewrite app_nil_r in Ht. subst reached.
    intros name. unfold flags_of. rewrite !dict_get_map_values.
    destruct (Hflags name) as [Hin Hout]. split.
    + intros H. destruct (Hin H) as (ch & -> & Hch). simpl. now rewrite Hch.
    + intros H. now rewrite (Hout H).
  - destruct Hrest as [_ Hrest]. congruence.
Qed.

(** X4.  In every state the coordinator reaches, [get_channel_data] returns
    values for a name of the configuration and raises [KeyError] for any
    other name; in both cases the state is left as it is. *)
Theorem get_channel_data_unconfigured (timer : T)
    (counters : list (string * C)) (steps : list (step C T))
    (name : string) (start end_ : Z) :
  let app := run steps (init timer counters) in
  (In name (map fst counters) ->
   exists values, get_channel_data name start end_ app = (inr values, app)) /\
  (~ In name (map fst counters) ->
   get_channel_data name start end_ app = (inl (KeyError name), app)).
Proof.
  intros app. rewrite get_channel_data_unfold.
  assert (Hkeys : In name (keys_of app) <-> In name (map fst counters)).
  { unfold app. rewrite run_keys. apply build_channels_keys. }
  split; intros H.
  - apply Hkeys, dict_get_in_keys in H.
    destruct (dict_get name (_channels app)); [eauto | congruence].
  - assert (Hnone : dict_get name (_channels app) = None).
    { apply dict_get_none. unfold keys_of in Hkeys. tauto. }
    now rewrite Hnone.
Qed.

(** X5.  With its default bounds ([start=0], [end=-1])
    [get_channel_data] returns the channel's buffer without its last
    element: the most recent sample is never part of a default read, and a
    buffer of one sample reads as empty. *)
Theorem get_channel_data_default_drops_last (app : App) (name : string)
    (channel : C) :
  dict_get name (_channels app) = Some channel ->
  get_channel_data_default name app = (inr (removelast (data channel)), app).
Proof.
  intros H. unfold get_channel_data_default.
  rewrite get_channel_data_unfold, H. now rewrite py_slice_default.
Qed.

(** X6.  Whatever the bounds, the values [get_channel_data] returns are a
    contiguous part of the channel's buffer, in the buffer's order, that
    begins at the position [start] stands for. *)
Theorem get_channel_data_segment (app : App) (name : string) (channel : C)
    (start end_ : Z) :
  dict_get name (_channels app) = Some channel ->
  exists before values after,
    get_channel_data name start end_ app = (inr values, app) /\
    data channel = before ++ values ++ after /\
    List.length before =
      Z.to_nat (bound_position start (Z.of_nat (List.length (data channel)))).
Proof.
  intros H. rewrite get_channel_data_unfold, H.
  destruct (py_slice_segment (data channel) start end_)
    as (before & after & Hsplit & Hlen).
  exists before, (py_slice (data channel) start end_), after. auto.
Qed.

(** X7.  With a non-negative [start] and an [end] at or past the length of
    the buffer, [get_channel_data] returns everything from [start] on, the
    last sample included; with [start = 0] that is the whole buffer. *)
Theorem get_channel_data_to_end (app : App) (name : string) (channel : C)
    (start end_ : Z) :
  dict_get name (_channels app) = Some channel ->
  0 <= start ->
  Z.of_nat (List.length (data channel)) <= end_ ->
  get_channel_data name start end_ app =
    (inr (skipn (Z.to_nat start) (data channel)), app) /\
  get_channel_data name 0 end_ app = (inr (data channel), app).
Proof.
  intros H Hs He. rewrite !get_channel_data_unfold, H.
  rewrite !py_slice_to_end by lia. auto.
Qed.

(** X8.  [start_channels] does not undo anything when a [start] raises: the
    channels before the failing one stay as their [start] left them, the
    failing one as its failed [start] left it, the channels after it are
    untouched; the timer is untouched in every case.  When no [start]
    raises, every channel is as its [start] left it. *)
Theorem start_channels_no_rollback (samples : Z) (app : App) :
  let result := start_channels samples app in
  _timer (snd result) = _timer app /\
  exists reached rest,
    _channels app = reached ++ rest /\
    Forall (start_ok samples) reached /\
    match fst result with
    | inr _ =>
        rest = [] /\
        _channels (snd result) = map (after_start samples) (_channels app)
    | inl e =>
        exists bad rest',
          rest = bad :: rest' /\
          fst (counter_start samples (snd bad)) = Some e /\
          _channels (snd result) =
            map (after_start samples) reached
              ++ after_start samples bad :: rest'
    end.
Proof.
  intros result. unfold result, start_channels. clear result.
  destruct (start_items samples _ _ _) as [[[r items] st] log] eqn:E.
  destruct (start_items_calls _ _ _ _ _ _ _ _ E)
    as (ok & rest & Hitems & Hok & _ & Hr). simpl.
  split; [reflexivity|]. exists ok, rest.
  split; [exact Hitems|]. split; [exact Hok|].
  destruct r as [e|]; simpl.
  - destruct Hr as (bad & rest' & -> & Hbad & -> & _). eauto.
  - destruct Hr as (-> & -> & _). split; [reflexivity|].
    rewrite Hitems, app_nil_r. reflexivity.
Qed.

(** X9.  [stop] never changes [_channels_started] nor the configured
    names, whether it returns or raises; the timer is left as its [stop]
    left it; and when the timer's [stop] raises, the channel objects are
    untouched. *)
Theorem stop_keeps_started (app : App) :
  _channels_started (snd (stop app)) = _channels_started app /\
  keys_of (snd (stop app)) = keys_of app /\
  _timer (snd (stop app)) = snd (timer_stop (_timer app)) /\
  (forall e,
     fst (timer_stop (_timer app)) = Some e ->
     _channels (snd (stop app)) = _channels app).
Proof.
  destruct (stop_state app) as [Hk Hs].
  split; [exact Hs|]. split; [exact Hk|].
  rewrite stop_unfold. unfold stop_timer.
  destruct (timer_stop (_timer app)) as [[e|] timer']; simpl.
  - split; [reflexivity|]. reflexivity.
  - split; [|discriminate]. unfold stop_channels. simpl.
    destruct (stop_items _ _) as [[r items] log]. reflexivity.
Qed.

(** X10.  [set_channels_enabled] calls no method of a channel or of the
    timer and leaves [_channels_started], the timer and the configured names
    as they are, whether it returns or raises: disabling a channel that was
    started does not take it out of [_channels_started]. *)
Theorem set_channels_enabled_frame (names : list string) (value : bool)
    (app : App) :
  let app' := snd (set_channels_enabled names value app) in
  calls app' = calls app /\
  _channels_started app' = _channels_started app /\
  _timer app' = _timer app /\
  keys_of app' = keys_of app.
Proof.
  intros app'. unfold app'. rewrite set_channels_enabled_unfold.
  destruct (for_assign_enabled value
              (match names with [] => keys_of app | _ => names end) app)
    as (? & ? & _ & _ & _ & Hk & Hs & Ht & Hc & _).
  auto.
Qed.

(** X11.  The methods that read ([get_all_data], [get_names],
    [get_channel_data], [get_channels_enabled], [get_samples_readies],
    [is_done]) leave the whole state as it is, the calls made on the
    collaborators included, also when they raise. *)
Theorem readers_leave_state (s : step C T) (app : App) :
  reads s = true -> serve s app = app.
Proof.
  destruct s; simpl; intros H; try discriminate.
  - apply get_all_data_reads.
  - reflexivity.
  - apply get_channel_data_reads.
  - reflexivity.
  - apply get_samples_readies_reads.
  - reflexivity.
Qed.

(** X12.  When every channel's [start] returns and the timer's [start]
    raises, [start_all] raises the timer's exception and nothing is undone:
    every channel stays as its [start] left it, [_channels_started] holds
    the enabled ones, and the calls made are the channel starts followed by
    the timer start. *)
Theorem start_all_timer_failure (samples : Z)
    (high_time low_time initial_delay : Q) (app : App) (e : exn) :
  Forall (start_ok samples) (_channels app) ->
  fst (timer_start samples high_time low_time initial_delay (_timer app)) =
    Some e ->
  let result := start_all samples high_time low_time initial_delay app in
  fst result = inl e /\
  _channels (snd result) = map (after_start samples) (_channels app) /\
  _channels_started (snd result) =
    dict_keys (filter (fun item => enabled (snd item))
                 (map (after_start samples) (_channels app))) /\
  calls (snd result) =
    calls app ++ map (fun n => CounterStart n samples) (keys_of app)
      ++ [TimerStart samples high_time low_time initial_delay].
Proof.
  intros Hall Ht result. unfold result. rewrite start_all_unfold.
  rewrite start_channels_all_ok by exact Hall. simpl.
  unfold start_timer. simpl.
  destruct (timer_start _ _ _ _ _) as [r timer']. simpl in *. subst r.
  simpl. rewrite <- app_assoc. auto.
Qed.

(** X13.  A whole cycle in which no collaborator raises: [start_all]
    followed by [stop] returns, and the calls made are, in this order, the
    [start] of every configured channel in configuration order, the timer's
    [start], the timer's [stop], and the [stop] of every configured channel
    in configuration order. *)
Theorem start_all_then_stop_calls (samples : Z)
    (high_time low_time initial_delay : Q) (app : App) (timer' : T) :
  Forall (start_ok samples) (_channels app) ->
  timer_start samples high_time low_time initial_delay (_timer app) =
    (None, timer') ->
  fst (timer_stop timer') = None ->
  Forall stop_ok (map (after_start samples) (_channels app)) ->
  let result :=
    (start_all samples high_time low_time initial_delay ;; stop) app in
  fst result = inr tt /\
  calls (snd result) =
    calls app
      ++ map (fun n => CounterStart n samples) (keys_of app)
      ++ [TimerStart samples high_time low_time initial_delay; TimerStop]
      ++ map CounterStop (keys_of app).
Proof.
  intros Hstart Htimer Hstop Hchannels result. unfold result, bind.
  rewrite start_all_unfold, start_channels_all_ok by exact Hstart. simpl.
  unfold start_timer. simpl. rewrite Htimer. simpl.
  rewrite stop_unfold. unfold stop_timer. simpl.
  destruct (timer_stop timer') as [r timer'']. simpl in Hstop. subst r.
  simpl. rewrite stop_channels_all_ok by exact Hchannels. simpl.
  split; [reflexivity|].
  unfold keys_of. simpl. rewrite after_start_keys.
  rewrite <- !app_assoc. reflexivity.
Qed.

(** X14.  After [__init__] on a configuration with distinct names the
    dictionary of channels holds exactly the configured counters, in
    configuration order, each found under its name; nothing is started and
    no call has been made on a collaborator. *)
Theorem init_stores_counters (timer : T) (counters : list (string * C)) :
  NoDup (map fst counters) ->
  _channels (init timer counters) = counters /\
  (forall name channel,
     In (name, channel) counters ->
     dict_get name (_channels (init timer counters)) = Some channel) /\
  _channels_started (init timer counters) = [] /\
  calls (init timer counters) = [].
Proof.
  intros Hnd. unfold init. simpl.
  rewrite build_channels_distinct by exact Hnd.
  split; [reflexivity|]. split; [|auto].
  intros name channel Hin. now apply dict_get_in_nodup.
Qed.

End Extras.

(** ** The further properties on the simulated devices *)

Section ExtrasSimulation.

Local Open Scope string_scope.

Ltac distinct_names :=
  repeat (constructor; [simpl; intuition discriminate|]); constructor.

Lemma get_names_configuration_order_witness :
  get_names
    (run Sim.steps_AB
       (init (Sim.mkTimer false false) [("A", Sim.chanA); ("B", Sim.chanB)])) =
  (inr ["A"; "B"],
   run Sim.steps_AB
     (init (Sim.mkTimer false false) [("A", Sim.chanA); ("B", Sim.chanB)])).
Proof.
  apply (get_names_configuration_order (Sim.mkTimer false false)
           [("A", Sim.chanA); ("B", Sim.chanB)] Sim.steps_AB).
  distinct_names.
Defined.

Lemma set_then_get_channels_enabled_witness :
  exists status',
    get_channels_enabled (snd (set_channels_enabled ["B"] true Sim.app_AB)) =
      (inr status', snd (set_channels_enabled ["B"] true Sim.app_AB)) /\
    dict_get "B" status' = Some true.
Proof.
  destruct (set_then_get_channels_enabled (Sim.mkTimer false false)
              [("A", Sim.chanA); ("B", Sim.chanB)] [] ["B"] true eq_refl)
    as (status & status' & _ & Hget & _ & Hflags).
  exists status'. split; [exact Hget|].
  apply Hflags. simpl. auto.
Defined.

Lemma get_channel_data_unconfigured_witness :
  get_channel_data "Z" 0 (-1) Sim.app_AB = (inl (KeyError "Z"), Sim.app_AB).
Proof.
  apply (get_channel_data_unconfigured (Sim.mkTimer false false)
           [("A", Sim.chanA); ("B", Sim.chanB)] [] "Z" 0 (-1)).
  simpl. intuition discriminate.
Defined.

Lemma get_channel_data_default_drops_last_witness :
  get_channel_data_default "A" Sim.app_AB = (inr [1; 2; 3; 4], Sim.app_AB).
Proof.
  exact (get_channel_data_default_drops_last Sim.app_AB "A" Sim.chanA
           eq_refl).
Defined.

Lemma get_channel_data_segment_witness :
  exists before values after,
    get_channel_data "A" 1 3 Sim.app_AB = (inr values, Sim.app_AB) /\
    [1; 2; 3; 4; 5] = (before ++ values ++ after)%list /\
    List.length before = 1%nat.
Proof.
  exact (get_channel_data_segment Sim.app_AB "A" Sim.chanA 1 3 eq_refl).
Defined.

Lemma get_channel_data_to_end_witness :
  get_channel_data "A" 2 5 Sim.app_AB = (inr [3; 4; 5], Sim.app_AB) /\
  get_channel_data "A" 0 5 Sim.app_AB = (inr [1; 2; 3; 4; 5], Sim.app_AB).
Proof.
  assert (H0 : 0 <= 2) by lia.
  assert (H1 : Z.of_nat (List.length (data Sim.chanA)) <= 5)
    by (simpl; lia).
  exact (get_channel_data_to_end Sim.app_AB "A" Sim.chanA 2 5 eq_refl H0 H1).
Defined.

Lemma readers_leave_state_witness :
  serve GetSamplesReadies Sim.app_AB_running = Sim.app_AB_running.
Proof.
  apply readers_leave_state. reflexivity.
Defined.

Lemma start_all_timer_failure_witness :
  fst (start_all 10 (1 # 100) (1 # 100) 0 Sim.app_busy_timer) =
    inl (DriverError 3) /\
  calls (snd (start_all 10 (1 # 100) (1 # 100) 0 Sim.app_busy_timer)) =
    [CounterStart "A" 10; CounterStart "B" 10;
     TimerStart 10 (1 # 100) (1 # 100) 0].
Proof.
  destruct (start_all_timer_failure 10 (1 # 100) (1 # 100) 0
              Sim.app_busy_timer (DriverError 3))
    as (Hres & _ & _ & Hcalls).
  - repeat constructor.
  - reflexivity.
  - split; [exact Hres | exact Hcalls].
Defined.

Lemma start_all_then_stop_calls_witness :
  fst ((start_all 10 (1 # 100) (1 # 100) 0 ;; stop) Sim.app_AB) = inr tt /\
  calls (snd ((start_all 10 (1 # 100) (1 # 100) 0 ;; stop) Sim.app_AB)) =
    [CounterStart "A" 10; CounterStart "B" 10;
     TimerStart 10 (1 # 100) (1 # 100) 0; TimerStop;
     CounterStop "A"; CounterStop "B"].
Proof.
  apply (start_all_then_stop_calls 10 (1 # 100) (1 # 100) 0 Sim.app_AB
           (Sim.mkTimer false false)).
  - repeat constructor.
  - reflexivity.
  - reflexivity.
  - repeat constructor.
Defined.

Lemma init_stores_counters_witness :
  _channels
    (init (Sim.mkTimer false false) [("A", Sim.chanA); ("B", Sim.chanB)]) =
    [("A", Sim.chanA); ("B", Sim.chanB)].
Proof.
  apply (init_stores_counters (Sim.mkTimer false false)
           [("A", Sim.chanA); ("B", Sim.chanB)]).
  distinct_names.
Defined.

End ExtrasSimulation.
